(** * Student registration and login system: model and verified properties

    A shallow embedding of [student_system.py] and of its sibling [cw.py]
    (class [StudentSystem]): the in-memory directory of student records, the
    JSON snapshot [students.json], the session ([current_user]) and the
    menu loop, followed by the properties of the specification.

    Modelling conventions.
    - Text is ASCII: a Python [str] is a [string] of 8-bit characters, and
      [str.upper], [str.lower], [str.title], [str.strip] are the ASCII
      restrictions of the Python methods.
    - [input()] is modelled by passing the typed lines as arguments, and
      [datetime.now().strftime(...)] by passing the formatted time.
    - [print] adds a [message] to the output of the call; banners and
      separators, which carry no information, are left out.
    - A Python [dict] is an association list in insertion order; the
      operations on it are those of a dict and keep its keys distinct.
    - The file system is one file, [students.json], seen through what
      [os.path.exists], [open] and [json.load] make of it, and a flag that
      says whether it can be opened for writing. *)

From Stdlib Require Import List String Ascii ZArith Bool Lia.
Import ListNotations.
Local Open Scope string_scope.

(* ================================================================== *)
(** * Python string methods (ASCII) *)
(* ================================================================== *)

Module PyStr.

Definition code (c : ascii) : nat := nat_of_ascii c.

Definition is_upper (c : ascii) : bool :=
  (65 <=? code c)%nat && (code c <=? 90)%nat.

Definition is_lower (c : ascii) : bool :=
  (97 <=? code c)%nat && (code c <=? 122)%nat.

Definition is_alpha (c : ascii) : bool := is_upper c || is_lower c.

Definition is_digit (c : ascii) : bool :=
  (48 <=? code c)%nat && (code c <=? 57)%nat.

(** [str.isspace] on code points below 128: TAB, LF, VT, FF, CR, the four
    separators FS, GS, RS, US and the space. *)
Definition is_space (c : ascii) : bool :=
  ((9 <=? code c)%nat && (code c <=? 13)%nat)
  || ((28 <=? code c)%nat && (code c <=? 32)%nat).

Definition to_upper (c : ascii) : ascii :=
  if is_lower c then ascii_of_nat (code c - 32) else c.

Definition to_lower (c : ascii) : ascii :=
  if is_upper c then ascii_of_nat (code c + 32) else c.

Fixpoint map (f : ascii -> ascii) (s : string) : string :=
  match s with
  | EmptyString => EmptyString
  | String c t => String (f c) (map f t)
  end.

(** [s.upper()] and [s.lower()] *)
Definition upper (s : string) : string := map to_upper s.
Definition lower (s : string) : string := map to_lower s.

(** [s.lstrip()], [s.rstrip()], [s.strip()] *)
Fixpoint lstrip (s : string) : string :=
  match s with
  | EmptyString => EmptyString
  | String c t => if is_space c then lstrip t else s
  end.

Fixpoint rstrip (s : string) : string :=
  match s with
  | EmptyString => EmptyString
  | String c t =>
      match rstrip t with
      | EmptyString => if is_space c then EmptyString else String c EmptyString
      | r => String c r
      end
  end.

Definition strip (s : string) : string := rstrip (lstrip s).

(** [s.title()]: a cased character is uppercased when the previous
    character is not cased, lowercased otherwise. *)
Fixpoint title_from (prev_cased : bool) (s : string) : string :=
  match s with
  | EmptyString => EmptyString
  | String c t =>
      if is_alpha c
      then String (if prev_cased then to_lower c else to_upper c)
                  (title_from true t)
      else String c (title_from false t)
  end.

Definition title (s : string) : string := title_from false s.

(** [bool(s)]: a string is truthy when it is not empty. *)
Definition truthy (s : string) : bool :=
  match s with EmptyString => false | _ => true end.

(** [len(s)] *)
Definition len (s : string) : Z := Z.of_nat (String.length s).

(** [s.startswith(p)] *)
Fixpoint startswith (p s : string) : bool :=
  match p, s with
  | EmptyString, _ => true
  | String _ _, EmptyString => false
  | String a p', String b s' => Ascii.eqb a b && startswith p' s'
  end.

(** [q in s]: [q] occurs in [s] as a contiguous substring. *)
Fixpoint contains (q s : string) : bool :=
  startswith q s ||
  match s with
  | EmptyString => false
  | String _ t => contains q t
  end.

End PyStr.

(* ================================================================== *)
(** * SHA-256 ([hashlib.sha256(...).hexdigest()]) *)
(* ================================================================== *)

Module SHA256.
Local Open Scope Z_scope.

Definition w32 (x : Z) : Z := x mod 2 ^ 32.
Definition add32 (x y : Z) : Z := w32 (x + y).
Definition rotr (n x : Z) : Z :=
  Z.lor (Z.shiftr x n) (w32 (Z.shiftl x (32 - n))).
Definition not32 (x : Z) : Z := Z.lxor x 0xffffffff.

Definition Ch (x y z : Z) : Z := Z.lxor (Z.land x y) (Z.land (not32 x) z).
Definition Maj (x y z : Z) : Z :=
  Z.lxor (Z.lxor (Z.land x y) (Z.land x z)) (Z.land y z).
Definition Sigma0 (x : Z) : Z := Z.lxor (Z.lxor (rotr 2 x) (rotr 13 x)) (rotr 22 x).
Definition Sigma1 (x : Z) : Z := Z.lxor (Z.lxor (rotr 6 x) (rotr 11 x)) (rotr 25 x).
Definition sigma0 (x : Z) : Z := Z.lxor (Z.lxor (rotr 7 x) (rotr 18 x)) (Z.shiftr x 3).
Definition sigma1 (x : Z) : Z := Z.lxor (Z.lxor (rotr 17 x) (rotr 19 x)) (Z.shiftr x 10).

(** The round constants are the first 32 bits of the fractional parts of
    the cube roots of the first 64 primes, the initial hash value those of
    the square roots of the first 8; they are computed from that definition. *)
Definition is_prime (n : nat) : bool :=
  forallb (fun d => negb (Nat.eqb (Nat.modulo n d) 0)) (seq 2 (n - 2)).

Definition primes : list Z :=
  List.map Z.of_nat (filter is_prime (seq 2 310)).

(** Integer cube root, one bit at a time from bit [bits - 1] down. *)
Fixpoint cube_root (bits : nat) (n r : Z) : Z :=
  match bits with
  | O => r
  | S b =>
      let c := r + 2 ^ Z.of_nat b in
      cube_root b n (if c * c * c <=? n then c else r)
  end.

Definition K : list Z :=
  List.map (fun p => w32 (cube_root 40 (p * 2 ^ 96) 0)) primes.

Definition H0 : list Z :=
  List.map (fun p => w32 (Z.sqrt (p * 2 ^ 64))) (firstn 8 primes).

(** Big-endian bytes of a [n]-byte quantity. *)
Fixpoint be_bytes (n : nat) (x : Z) : list Z :=
  match n with
  | O => []
  | S m => Z.shiftr x (8 * Z.of_nat m) mod 256 :: be_bytes m x
  end.

Definition be_word (bs : list Z) : Z :=
  fold_left (fun acc b => acc * 256 + b) bs 0.

(** Padding: the bit 1, zeros up to 56 mod 64 bytes, the bit length on 64 bits. *)
Definition pad (msg : list Z) : list Z :=
  let l := Z.of_nat (List.length msg) in
  msg ++ [0x80] ++ repeat 0 (Z.to_nat ((55 - l) mod 64)) ++ be_bytes 8 (8 * l).

Fixpoint chunks (fuel : nat) (n : nat) (l : list Z) : list (list Z) :=
  match fuel, l with
  | O, _ | _, [] => []
  | S fuel', _ => firstn n l :: chunks fuel' n (skipn n l)
  end.

Definition words_of_block (block : list Z) : list Z :=
  List.map be_word (chunks 16 4 block).

(** Message schedule: [win] holds the last sixteen words, oldest first. *)
Fixpoint schedule (n : nat) (win : list Z) : list Z :=
  match n with
  | O => []
  | S m =>
      let w := add32 (add32 (sigma1 (nth 14 win 0)) (nth 9 win 0))
                     (add32 (sigma0 (nth 1 win 0)) (nth 0 win 0)) in
      w :: schedule m (tl win ++ [w])
  end.

Definition expand (block_words : list Z) : list Z :=
  block_words ++ schedule 48 block_words.

Definition round (st : list Z) (kw : Z * Z) : list Z :=
  match st with
  | [a; b; c; d; e; f; g; h] =>
      let t1 := add32 (add32 (add32 h (Sigma1 e)) (add32 (Ch e f g) (fst kw))) (snd kw) in
      let t2 := add32 (Sigma0 a) (Maj a b c) in
      [add32 t1 t2; a; b; c; add32 d t1; e; f; g]
  | _ => st
  end.

Fixpoint add_words (xs ys : list Z) : list Z :=
  match xs, ys with
  | x :: xs', y :: ys' => add32 x y :: add_words xs' ys'
  | _, _ => []
  end.

Definition compress (h : list Z) (block : list Z) : list Z :=
  add_words h (fold_left round (combine K (expand (words_of_block block))) h).

Definition digest (msg : list Z) : list Z :=
  let p := pad msg in
  fold_left compress (chunks (List.length p) 64 p) H0.

Definition hex_digit (d : Z) : ascii :=
  if d <? 10 then ascii_of_nat (Z.to_nat (48 + d))
  else ascii_of_nat (Z.to_nat (87 + d)).

Fixpoint hex_of_bytes (bs : list Z) : string :=
  match bs with
  | [] => EmptyString
  | b :: t => String (hex_digit (b / 16)) (String (hex_digit (b mod 16)) (hex_of_bytes t))
  end.

(** [s.encode()] on ASCII text. *)
Fixpoint encode (s : string) : list Z :=
  match s with
  | EmptyString => []
  | String c t => Z.of_nat (nat_of_ascii c) :: encode t
  end.

Definition hexdigest (msg : list Z) : string :=
  hex_of_bytes (flat_map (be_bytes 4) (digest msg)).

End SHA256.

(* ================================================================== *)
(** * Regular expressions ([re.match]) *)
(* ================================================================== *)

Module Re.

(** The fragment of Python's regular expressions that the e-mail pattern
    uses, matched by Brzozowski derivatives. *)
Inductive regex : Type :=
| Void
| Eps
| Class (p : ascii -> bool)
| Seq (r s : regex)
| Alt (r s : regex)
| Star (r : regex).

Fixpoint nullable (r : regex) : bool :=
  match r with
  | Void => false
  | Eps => true
  | Class _ => false
  | Seq r s => nullable r && nullable s
  | Alt r s => nullable r || nullable s
  | Star _ => true
  end.

Fixpoint deriv (c : ascii) (r : regex) : regex :=
  match r with
  | Void => Void
  | Eps => Void
  | Class p => if p c then Eps else Void
  | Seq r s =>
      if nullable r then Alt (Seq (deriv c r) s) (deriv c s)
      else Seq (deriv c r) s
  | Alt r s => Alt (deriv c r) (deriv c s)
  | Star r => Seq (deriv c r) (Star r)
  end.

(** The whole of [s] is a word of [r]. *)
Fixpoint fullmatch (r : regex) (s : string) : bool :=
  match s with
  | EmptyString => nullable r
  | String c t => fullmatch (deriv c r) t
  end.

(** [r+] and [r{2,}] *)
Definition Plus (r : regex) : regex := Seq r (Star r).
Definition AtLeast2 (r : regex) : regex := Seq r (Seq r (Star r)).

(** [$] outside MULTILINE mode: the end of the string, or the position
    just before a newline that ends the string. *)
Definition Dollar : regex := Alt Eps (Class (Ascii.eqb "010"%char)).

(** The words of an expression. *)
Inductive lang : regex -> string -> Prop :=
| L_eps : lang Eps ""
| L_class p c : p c = true -> lang (Class p) (String c "")
| L_seq r s u v : lang r u -> lang s v -> lang (Seq r s) (u ++ v)
| L_alt_l r s u : lang r u -> lang (Alt r s) u
| L_alt_r r s u : lang s u -> lang (Alt r s) u
| L_star_nil r : lang (Star r) ""
| L_star_cons r u v : lang r u -> lang (Star r) v -> lang (Star r) (u ++ v).

(** Every character of [s] satisfies [p]. *)
Fixpoint all (p : ascii -> bool) (s : string) : bool :=
  match s with
  | EmptyString => true
  | String c t => p c && all p t
  end.

End Re.

(* ================================================================== *)
(** * Data model *)
(* ================================================================== *)

(** The value stored under a student ID: the dict built by [register]. *)
Record student : Type := mkStudent {
  name : string;
  email : string;
  password_hash : string;
  registered_on : string;
  login_count : Z;
  last_login : option string  (* [None] until the first login *)
}.

(** [self.students]: a dict from student ID to record, in insertion order. *)
Definition directory : Type := list (string * student).

Module Dict.

(** [d.get(k)] ([None] where [d[k]] raises [KeyError]) *)
Fixpoint get (k : string) (d : directory) : option student :=
  match d with
  | [] => None
  | (k', v) :: t => if String.eqb k' k then Some v else get k t
  end.

(** [k in d] *)
Definition mem (k : string) (d : directory) : bool :=
  match get k d with Some _ => true | None => false end.

(** [d[k] = v]: an existing key keeps its position, a new one goes last. *)
Fixpoint set (k : string) (v : student) (d : directory) : directory :=
  match d with
  | [] => [(k, v)]
  | (k', v') :: t =>
      if String.eqb k' k then (k, v) :: t else (k', v') :: set k v t
  end.

(** [del d[k]] *)
Fixpoint del (k : string) (d : directory) : directory :=
  match d with
  | [] => []
  | (k', v') :: t =>
      if String.eqb k' k then del k t else (k', v') :: del k t
  end.

Definition keys (d : directory) : list string := List.map fst d.

End Dict.

(** What [json.load] returns. The members of an object are taken to be
    student records; the other values only matter for their shape. *)
#[warnings="-register-all"]
Inductive json : Type :=
| JObject (members : directory)
| JArray (items : list json)
| JString (s : string)
| JNumber (n : Z)
| JBool (b : bool)
| JNull.

(** [students.json] as [load_data] meets it. [json.dump] followed by
    [json.load] is taken to be the identity on a directory. A file on which
    [json.load] raises something else than [JSONDecodeError] (bytes that are
    not UTF-8) has no case here. *)
Inductive file : Type :=
| Absent                  (* [os.path.exists] is false *)
| Unreadable              (* exists, [open] raises [PermissionError] *)
| Malformed               (* [json.load] raises [JSONDecodeError] *)
| Parsed (data : json).   (* [json.load] returns [data] *)

Record filesystem : Type := mkFs {
  data_file : file;
  writable : bool   (* [open(DATA_FILE, 'w')] succeeds *)
}.

(** The process state: the two attributes of [StudentSystem] and the disk. *)
Record World : Type := mkWorld {
  students : directory;
  current_user : option string;
  disk : filesystem
}.

Inductive exn : Type :=
| KeyError (key : string)
| OSError.                (* [IOError] is the same class *)

(** The lines the program prints, one constructor per [print] that reports
    something; the wording differs between the two files, the cases do not. *)
Inductive message : Type :=
| WarnInvalidFormat            (* "Warning: Data file format invalid. Starting fresh." *)
| WarnUnreadable               (* "Warning: Could not read data file ..." *)
| ErrSaving                    (* "Error saving data: ..." *)
| ErrFieldsRequired            (* "Error: All fields are required." *)
| ErrPasswordTooShort          (* "Error: Password must be at least 6 characters long." *)
| ErrInvalidEmail              (* "Error: Invalid email format." *)
| ErrAlreadyRegistered (student_id : string)
| OkRegistered (name : string)
| ErrIdNotFound                (* "Error: Student ID not found." *)
| ErrIncorrectPassword         (* "Error: Incorrect password." *)
| OkLoggedIn (name : string)
| NoStudents                   (* "No students registered yet." *)
| StudentLine (count : Z) (student_id : string) (data : student)
| EmptySearchTerm              (* "Search term cannot be empty." *)
| Found (name student_id email : string)
| NoMatch                      (* "No matching student found." *)
| Deleted (name : string)
| Cancelled                    (* "Operation cancelled." *)
| MustLogin                    (* "You must be logged in to view your profile." *)
| Profile (student_id : string) (data : student)
| Goodbye (name : string)
| NoUserLoggedIn               (* "No user is currently logged in." *)
| StatusLoggedIn (name student_id : string)
| StatusGuest
| InvalidChoice
| ExitMessage
| Unexpected (e : exn).        (* "An unexpected error occurred: ..." *)

(** The two source files. *)
Inductive source : Type := student_system_py | cw_py.

(* ================================================================== *)
(** * The monad of the methods: state, output and exceptions *)
(* ================================================================== *)

Inductive result (A : Type) : Type :=
| Return (a : A)
| Raise (e : exn).
Arguments Return {A} a.
Arguments Raise {A} e.

Record outcome (A : Type) : Type := mkOutcome {
  final : World;             (* the state the call leaves *)
  printed : list message;    (* what it printed, in order *)
  value : result A
}.
Arguments mkOutcome {A} _ _ _.
Arguments final {A} _.
Arguments printed {A} _.
Arguments value {A} _.

Definition M (A : Type) : Type := World -> outcome A.

Definition ret {A} (a : A) : M A := fun w => mkOutcome w [] (Return a).

Definition raise {A} (e : exn) : M A := fun w => mkOutcome w [] (Raise e).

Definition bind {A B} (m : M A) (k : A -> M B) : M B :=
  fun w =>
    let o := m w in
    match value o with
    | Return a =>
        let o' := k a (final o) in
        mkOutcome (final o') (printed o ++ printed o') (value o')
    | Raise e => mkOutcome (final o) (printed o) (Raise e)
    end.

(** [try: m  except Exception as e: h e] *)
Definition try_except {A} (m : M A) (h : exn -> M A) : M A :=
  fun w =>
    let o := m w in
    match value o with
    | Return a => o
    | Raise e =>
        let o' := h e (final o) in
        mkOutcome (final o') (printed o ++ printed o') (value o')
    end.

Notation "x <- m ;; k" := (bind m (fun x => k))
  (at level 61, m at next level, right associativity).
Notation "m ;; k" := (bind m (fun _ => k))
  (at level 61, right associativity).

Definition print (msg : message) : M unit :=
  fun w => mkOutcome w [msg] (Return tt).

Definition get_students : M directory := fun w => ret (students w) w.
Definition get_current_user : M (option string) := fun w => ret (current_user w) w.

Definition set_students (d : directory) : M unit :=
  fun w => mkOutcome (mkWorld d (current_user w) (disk w)) [] (Return tt).

Definition set_current_user (u : option string) : M unit :=
  fun w => mkOutcome (mkWorld (students w) u (disk w)) [] (Return tt).

(** [self.students[k]] *)
Definition getitem (k : string) : M student :=
  d <- get_students ;;
  match Dict.get k d with
  | Some r => ret r
  | None => raise (KeyError k)
  end.

(* ================================================================== *)
(** * The methods of [StudentSystem] *)
(* ================================================================== *)

Import PyStr.

(** [bool(self.current_user)]: [None] and the empty string are falsy. *)
Definition logged_in (w : World) : bool :=
  match current_user w with
  | Some u => truthy u
  | None => false
  end.

(** [load_data]. [student_system.py] checks [isinstance(data, dict)] and
    catches [json.JSONDecodeError] and [IOError]; [cw.py] returns whatever
    [json.load] gives and catches [json.JSONDecodeError] and
    [FileNotFoundError]. *)
Definition load_data (v : source) : M json :=
  fun w =>
    match data_file (disk w), v with
    | Absent, _ => ret (JObject []) w
    | Parsed data, student_system_py =>
        match data with
        | JObject _ => ret data w
        | _ => (print WarnInvalidFormat ;; ret (JObject [])) w
        end
    | Parsed data, cw_py => ret data w
    | Malformed, _ => (print WarnUnreadable ;; ret (JObject [])) w
    | Unreadable, student_system_py => (print WarnUnreadable ;; ret (JObject [])) w
    | Unreadable, cw_py => raise OSError w
    end.

(** [json.dump(self.students, f, indent=4)] into the file opened for writing *)
Definition write_snapshot : M unit :=
  fun w =>
    mkOutcome
      (mkWorld (students w) (current_user w)
               (mkFs (Parsed (JObject (students w))) (writable (disk w))))
      [] (Return tt).

(** [save_data]. [student_system.py] catches the [IOError] of a failed write
    and prints it; [cw.py] lets it propagate. *)
Definition save_data (v : source) : M unit :=
  fun w =>
    if writable (disk w) then write_snapshot w
    else match v with
         | student_system_py => print ErrSaving w
         | cw_py => raise OSError w
         end.

(** [hash_password]: [hashlib.sha256(password.encode()).hexdigest()] *)
Definition hash_password (password : string) : string :=
  SHA256.hexdigest (SHA256.encode password).

Definition local_char (c : ascii) : bool :=
  is_alpha c || is_digit c
  || Ascii.eqb c "." || Ascii.eqb c "_" || Ascii.eqb c "%"
  || Ascii.eqb c "+" || Ascii.eqb c "-".

Definition domain_char (c : ascii) : bool :=
  is_alpha c || is_digit c || Ascii.eqb c "." || Ascii.eqb c "-".

(** [^[a-zA-Z0-9._%+-]+@[a-zA-Z0-9.-]+\.[a-zA-Z]{2,}$] *)
Definition pattern : Re.regex :=
  Re.Seq (Re.Plus (Re.Class local_char))
 (Re.Seq (Re.Class (Ascii.eqb "@"))
 (Re.Seq (Re.Plus (Re.Class domain_char))
 (Re.Seq (Re.Class (Ascii.eqb "."))
 (Re.Seq (Re.AtLeast2 (Re.Class is_alpha))
         Re.Dollar)))).

(** [validate_email]: [re.match(pattern, email) is not None] *)
Definition validate_email (email : string) : bool :=
  Re.fullmatch pattern email.

(** [register]; the arguments are the four lines typed at the prompts and
    the current time. *)
Definition register (v : source)
    (name_in id_in email_in password now : string) : M unit :=
  let name := title (strip name_in) in
  let student_id := upper (strip id_in) in
  let email := lower (strip email_in) in
  if negb (truthy name) || negb (truthy student_id)
     || negb (truthy email) || negb (truthy password)
  then print ErrFieldsRequired
  else if (len password <? 6)%Z
  then print ErrPasswordTooShort
  else if negb (validate_email email)
  then print ErrInvalidEmail
  else
    d <- get_students ;;
    if Dict.mem student_id d
    then print (ErrAlreadyRegistered student_id)
    else
      set_students
        (Dict.set student_id
           (mkStudent name email (hash_password password) now 0%Z None) d) ;;
      save_data v ;;
      print (OkRegistered name).

(** [user["login_count"] += 1; user["last_login"] = now] *)
Definition record_login (now : string) (user : student) : student :=
  mkStudent (name user) (email user) (password_hash user) (registered_on user)
            (login_count user + 1)%Z (Some now).

(** [login] *)
Definition login (v : source) (id_in password now : string) : M unit :=
  let student_id := upper (strip id_in) in
  d <- get_students ;;
  if negb (Dict.mem student_id d)
  then print ErrIdNotFound
  else
    user <- getitem student_id ;;
    if negb (String.eqb (password_hash user) (hash_password password))
    then print ErrIncorrectPassword
    else
      set_students (Dict.set student_id (record_login now user) d) ;;
      save_data v ;;
      set_current_user (Some student_id) ;;
      print (OkLoggedIn (name user)).

(** The [for] loop of [view_all_students], [count] starting at 1. *)
Fixpoint view_loop (count : Z) (items : directory) : M unit :=
  match items with
  | [] => ret tt
  | (student_id, data) :: rest =>
      print (StudentLine count student_id data) ;;
      view_loop (count + 1)%Z rest
  end.

(** [view_all_students] *)
Definition view_all_students : M unit :=
  d <- get_students ;;
  match d with
  | [] => print NoStudents
  | _ => view_loop 1%Z d
  end.

(** The [for] loop of [search_student]; returns the flag [found]. *)
Fixpoint search_loop (query : string) (items : directory) (found : bool) : M bool :=
  match items with
  | [] => ret found
  | (student_id, data) :: rest =>
      if contains query (lower student_id) || contains query (lower (name data))
      then print (Found (name data) student_id (email data)) ;;
           search_loop query rest true
      else search_loop query rest found
  end.

(** [search_student] *)
Definition search_student (query_in : string) : M unit :=
  let query := lower (strip query_in) in
  if negb (truthy query)
  then print EmptySearchTerm
  else
    d <- get_students ;;
    found <- search_loop query d false ;;
    if negb found then print NoMatch else ret tt.

Definition option_string_eqb (a b : option string) : bool :=
  match a, b with
  | Some x, Some y => String.eqb x y
  | None, None => true
  | _, _ => false
  end.

(** [delete_student]; [confirm_in] is the answer to the confirmation
    prompt, which is only asked when the ID exists. *)
Definition delete_student (v : source) (id_in confirm_in : string) : M unit :=
  let student_id := upper (strip id_in) in
  d <- get_students ;;
  if Dict.mem student_id d
  then
    user <- getitem student_id ;;
    let confirm := lower (strip confirm_in) in
    if String.eqb confirm "y"
    then
      set_students (Dict.del student_id d) ;;
      save_data v ;;
      u <- get_current_user ;;
      (if option_string_eqb u (Some student_id)
       then set_current_user None else ret tt) ;;
      print (Deleted (name user))
    else print Cancelled
  else print ErrIdNotFound.

(** [self.students[self.current_user]] *)
Definition current_record : M (string * student) :=
  u <- get_current_user ;;
  match u with
  | Some student_id => data <- getitem student_id ;; ret (student_id, data)
  | None => raise (KeyError "None")
  end.

(** [view_profile] *)
Definition view_profile : M unit :=
  fun w =>
    if negb (logged_in w) then print MustLogin w
    else (sd <- current_record ;; print (Profile (fst sd) (snd sd))) w.

(** [logout] *)
Definition logout : M unit :=
  fun w =>
    if logged_in w
    then (sd <- current_record ;;
          print (Goodbye (name (snd sd))) ;;
          set_current_user None) w
    else print NoUserLoggedIn w.

(** One line of the menu with what is typed after it. *)
Inductive command : Type :=
| Register (name_in id_in email_in password now : string)   (* '1' *)
| Login (id_in password now : string)                       (* '2' *)
| ViewAll                                                   (* '3' *)
| Search (query_in : string)                                (* '4' *)
| Delete (id_in confirm_in : string)                        (* '5' *)
| ViewProfile                                               (* '6' *)
| Logout                                                    (* '7' *)
| Exit                                                      (* '0' *)
| Other.                                                    (* anything else *)

(** The status line printed at the top of each turn of the loop. *)
Definition status : M unit :=
  fun w =>
    if logged_in w
    then (sd <- current_record ;;
          print (StatusLoggedIn (name (snd sd)) (fst sd))) w
    else print StatusGuest w.

(** The [if]/[elif] chain of [run], without the [break] of choice '0'. *)
Definition dispatch (v : source) (c : command) : M unit :=
  fun w =>
    match c with
    | Register n i e p t => register v n i e p t w
    | Login i p t => login v i p t w
    | ViewAll => view_all_students w
    | Search q => search_student q w
    | Delete i c => delete_student v i c w
    | ViewProfile => if logged_in w then view_profile w else print InvalidChoice w
    | Logout => if logged_in w then logout w else print InvalidChoice w
    | Exit => print ExitMessage w
    | Other => print InvalidChoice w
    end.

(** One turn of the [while True] loop: the status line, which is outside
    the [try], then the choice under [except Exception]. *)
Definition turn (v : source) (c : command) : M unit :=
  status ;;
  try_except (dispatch v c) (fun e => print (Unexpected e)).

(** [run]: the loop over the typed commands; it ends at choice '0', when
    the input ends, or when an exception escapes. *)
Fixpoint run (v : source) (cmds : list command) : M unit :=
  match cmds with
  | [] => ret tt
  | Exit :: _ => turn v Exit
  | c :: rest => turn v c ;; run v rest
  end.

(** [__init__]: the attributes before [load_data] has run. *)
Definition blank (fs : filesystem) : World := mkWorld [] None fs.

(** [StudentSystem()]: [None] when the constructor raises, and when
    [load_data] of [cw.py] returns something that is not a dict, which the
    methods above do not cover. *)
Definition init (v : source) (fs : filesystem) : option World :=
  let o := load_data v (blank fs) in
  match value o with
  | Return (JObject d) => Some (mkWorld d None fs)
  | _ => None
  end.

(* ================================================================== *)
(** * Vocabulary of the properties *)
(* ================================================================== *)

(** [save_data] raises: only in [cw.py], when the file cannot be written. *)
Definition save_raises (v : source) (w : World) : bool :=
  match v with
  | student_system_py => false
  | cw_py => negb (writable (disk w))
  end.

(** The session invariant: the current user, when set, is a key of the
    directory. *)
Definition session_valid (w : World) : Prop :=
  forall student_id,
    current_user w = Some student_id -> Dict.mem student_id (students w) = true.

(** A Python dict holds each key once. *)
Definition keys_unique (w : World) : Prop := NoDup (Dict.keys (students w)).

(** The calls that report success. *)
Definition login_succeeds (o : outcome unit) : Prop :=
  value o = Return tt /\ exists n, In (OkLoggedIn n) (printed o).

Definition register_succeeds (o : outcome unit) : Prop :=
  value o = Return tt /\ exists n, In (OkRegistered n) (printed o).

Definition delete_succeeds (o : outcome unit) : Prop :=
  value o = Return tt /\ exists n, In (Deleted n) (printed o).

(** The states of a running program: the one the constructor builds, and
    those that follow it by turns of the menu loop that do not crash. *)
Inductive reachable (v : source) : World -> Prop :=
| reach_init (fs : filesystem) (w : World) :
    init v fs = Some w -> reachable v w
| reach_turn (w : World) (c : command) :
    reachable v w ->
    value (turn v c w) = Return tt ->
    reachable v (final (turn v c w)).

(** The lines of a search that report a match. *)
Definition is_found (m : message) : bool :=
  match m with Found _ _ _ => true | _ => false end.

Definition found_lines (out : list message) : list message :=
  filter is_found out.

Definition found_line (item : string * student) : message :=
  Found (name (snd item)) (fst item) (email (snd item)).

(** [q] is a case-insensitive substring of [s]. *)
Definition ci_contains (q s : string) : bool :=
  contains (lower q) (lower s).

Definition matches (q : string) (item : string * student) : bool :=
  ci_contains q (fst item) || ci_contains q (name (snd item)).

Definition set_user (u : option string) (w : World) : World :=
  mkWorld (students w) u (disk w).

(** After the save of [delete_student], the session is cleared when it
    names the deleted ID. *)
Definition clear_if_current (id_in : string) (w' : World) : World :=
  if option_string_eqb (current_user w') (Some (upper (strip id_in)))
  then set_user None w' else w'.

(** What a mutating method does from the point where it calls [save_data]
    in the state [w1], given what it still does after a save that returns. *)
Definition after_save (v : source) (w1 : World)
    (rest : World -> World) (msg : message) : outcome unit :=
  let s := save_data v w1 in
  match value s with
  | Return _ => mkOutcome (rest (final s)) (printed s ++ [msg]) (Return tt)
  | Raise e => mkOutcome (final s) (printed s) (Raise e)
  end.

(** The call was rejected: it printed one of the lines [msgs], changed
    nothing and returned. *)
Definition rejection (o : outcome unit) (w : World) (msgs : list message) : Prop :=
  exists msg, In msg msgs /\ o = mkOutcome w [msg] (Return tt).

(** The mutating commands and what counts as their success. *)
Definition succeeds (c : command) (o : outcome unit) : Prop :=
  match c with
  | Register _ _ _ _ _ => register_succeeds o
  | Login _ _ _ => login_succeeds o
  | Delete _ _ => delete_succeeds o
  | _ => False
  end.

(** The loop crashes when the status line raises, outside the [try]. *)
Definition crashes (w : World) : bool :=
  match value (status w) with
  | Return _ => false
  | Raise _ => true
  end.

(** ** The claims that fail, as the specification words them *)

(** C3, as the specification words it: after a successful mutating
    command the snapshot holds the directory in memory. *)
Definition snapshot_as_stated (v : source) (c : command) (w : World) : Prop :=
  succeeds c (dispatch v c w) ->
  data_file (disk (final (dispatch v c w)))
  = Parsed (JObject (students (final (dispatch v c w)))).

(** C7, as the specification words it: the matches of the query as typed. *)
Definition search_as_stated (query_in : string) (w : World) : Prop :=
  found_lines (printed (search_student query_in w))
  = List.map found_line (filter (matches query_in) (students w)).

(** C4, as the specification words it: no turn of the loop takes the
    session from one user directly to another. *)
Definition no_session_takeover (v : source) : Prop :=
  forall (w : World) (c : command) (id id' : string),
    reachable v w ->
    value (turn v c w) = Return tt ->
    current_user w = Some id ->
    current_user (final (turn v c w)) = Some id' ->
    id' = id.

(** Sample states. *)

Definition fresh_disk : filesystem := mkFs Absent true.

Definition ada : student :=
  mkStudent "Ada Lovelace" "ada@example.com" (hash_password "secret1")
            "2024-01-01 10:00:00" 0 None.

Definition bob : student :=
  mkStudent "Bob" "bob@x.com" (hash_password "abcdef")
            "2024-01-02 09:00:00" 0 None.

Definition two_students : directory := [("S001", ada); ("S002", bob)].

(** Two students on record, nobody logged in. *)
Definition w2 : World :=
  mkWorld two_students None (mkFs (Parsed (JObject two_students)) true).

(** Ada is logged in. *)
Definition w2_ada : World :=
  mkWorld two_students (Some "S001") (mkFs (Parsed (JObject two_students)) true).

(** ** Vocabulary of the further properties *)

(** A lowercase hexadecimal digit. *)
Definition is_hex (c : ascii) : bool :=
  is_digit c || ((97 <=? code c)%nat && (code c <=? 102)%nat).

(** What [register] guarantees of a record it stores under the key [k],
    and [login] keeps: a non-empty key in normal form, a name, an e-mail
    that matches the pattern, a digest of 64 characters, a counter that is
    zero exactly as long as there has been no login. *)
Definition record_ok (k : string) (r : student) : Prop :=
  k <> ""
  /\ upper (strip k) = k
  /\ name r <> ""
  /\ validate_email (email r) = true
  /\ String.length (password_hash r) = 64%nat
  /\ (0 <= login_count r)%Z
  /\ (last_login r = None <-> login_count r = 0%Z).

Definition directory_ok (d : directory) : Prop :=
  Forall (fun kr => record_ok (fst kr) (snd kr)) d.

(** A byte. *)
Definition byte_range (b : Z) : Prop := (0 <= b < 256)%Z.

(** The string holds ASCII characters only. *)
Definition is_ascii (s : string) : bool :=
  Re.all (fun c => (code c <? 128)%nat) s.

(** The choices that only display. *)
Definition read_only (c : command) : bool :=
  match c with
  | ViewAll | Search _ | ViewProfile | Exit | Other => true
  | Register _ _ _ _ _ | Login _ _ _ | Delete _ _ | Logout => false
  end.

(* ================================================================== *)
(** * Lemmas on strings and dicts *)
(* ================================================================== *)

Lemma truthy_false (s : string) : truthy s = false <-> s = "".
Proof. destruct s; simpl; split; intro H; congruence. Qed.

Lemma truthy_true (s : string) : truthy s = true <-> s <> "".
Proof. destruct s; simpl; split; intro H; congruence. Qed.

Lemma startswith_spec (p s : string) :
  startswith p s = true <-> exists t, s = p ++ t.
Proof.
  revert s; induction p as [|a p IH]; intros s; simpl.
  - split; [intros _; now exists s | reflexivity].
  - destruct s as [|b s].
    + split; [discriminate | intros [t Ht]; discriminate].
    + rewrite andb_true_iff, IH. split.
      * intros [Hab [t ->]]. apply Ascii.eqb_eq in Hab. subst. now exists t.
      * intros [t Ht]. injection Ht as -> ->. split.
        -- apply Ascii.eqb_refl.
        -- now exists t.
Qed.

(** [contains] is Python's [in] on strings. *)
Lemma contains_spec (q s : string) :
  contains q s = true <-> exists a b, s = a ++ q ++ b.
Proof.
  induction s as [|c s IH].
  - simpl. rewrite orb_false_r, startswith_spec. split.
    + intros [t Ht]. now exists "", t.
    + intros [a [b Hab]]. destruct a; simpl in Hab.
      * now exists b.
      * discriminate.
  - cbn [contains]. rewrite orb_true_iff, startswith_spec, IH. split.
    + intros [[t Ht] | [a [b Hab]]].
      * now exists "", t.
      * exists (String c a), b. simpl. now rewrite Hab.
    + intros [a [b Hab]]. destruct a as [|c' a]; simpl in Hab.
      * left. now exists b.
      * right. injection Hab as _ Hab. now exists a, b.
Qed.

Lemma contains_empty (s : string) : contains "" s = true.
Proof. destruct s; reflexivity. Qed.

Module DictFacts.
Import Dict.

Lemma mem_get (k : string) (d : directory) :
  mem k d = true <-> exists r, get k d = Some r.
Proof.
  unfold mem. destruct (get k d) as [r|]; split.
  - intros _. now exists r.
  - reflexivity.
  - discriminate.
  - intros [r Hr]. discriminate.
Qed.

Lemma mem_false_get (k : string) (d : directory) :
  mem k d = false <-> get k d = None.
Proof. unfold mem. destruct (get k d); split; congruence. Qed.

Lemma get_set_same (k : string) (v : student) (d : directory) :
  get k (set k v d) = Some v.
Proof.
  induction d as [|[k' v'] t IH]; simpl.
  - now rewrite String.eqb_refl.
  - destruct (String.eqb k' k) eqn:E; simpl.
    + now rewrite String.eqb_refl.
    + now rewrite E.
Qed.

Lemma get_set_other (k k0 : string) (v : student) (d : directory) :
  k0 <> k -> get k0 (set k v d) = get k0 d.
Proof.
  intros Hne. induction d as [|[k' v'] t IH]; simpl.
  - destruct (String.eqb k k0) eqn:E; [apply String.eqb_eq in E; congruence | reflexivity].
  - destruct (String.eqb k' k) eqn:E; simpl.
    + apply String.eqb_eq in E. subst k'.
      destruct (String.eqb k k0) eqn:E'; [apply String.eqb_eq in E'; congruence | reflexivity].
    + destruct (String.eqb k' k0); [reflexivity | exact IH].
Qed.

Lemma get_del_same (k : string) (d : directory) : get k (del k d) = None.
Proof.
  induction d as [|[k' v'] t IH]; simpl; [reflexivity|].
  destruct (String.eqb k' k) eqn:E; simpl; [exact IH | now rewrite E].
Qed.

Lemma get_del_other (k k0 : string) (d : directory) :
  k0 <> k -> get k0 (del k d) = get k0 d.
Proof.
  intros Hne. induction d as [|[k' v'] t IH]; simpl; [reflexivity|].
  destruct (String.eqb k' k) eqn:E; simpl.
  - apply String.eqb_eq in E. subst k'.
    destruct (String.eqb k k0) eqn:E'; [apply String.eqb_eq in E'; congruence | exact IH].
  - destruct (String.eqb k' k0); [reflexivity | exact IH].
Qed.

Lemma mem_set (k k0 : string) (v : student) (d : directory) :
  mem k0 d = true -> mem k0 (set k v d) = true.
Proof.
  unfold mem. intros H. destruct (string_dec k0 k) as [->|Hne].
  - now rewrite get_set_same.
  - now rewrite get_set_other.
Qed.

(** A dict has each key once; [set] and [del] keep it so. *)
Lemma keys_set_in (k k0 : string) (v : student) (d : directory) :
  In k0 (keys (set k v d)) -> k0 = k \/ In k0 (keys d).
Proof.
  induction d as [|[k' v'] t IH]; simpl.
  - intros [H|[]]; now left.
  - destruct (String.eqb k' k) eqn:E; simpl.
    + apply String.eqb_eq in E. subst k'. intros [H|H]; auto.
    + intros [H|H]; auto. destruct (IH H); auto.
Qed.

Lemma nodup_set (k : string) (v : student) (d : directory) :
  NoDup (keys d) -> NoDup (keys (set k v d)).
Proof.
  induction d as [|[k' v'] t IH]; simpl; intros H.
  - constructor; [intros [] | constructor].
  - inversion H as [|? ? Hnin Hnd]; subst.
    destruct (String.eqb k' k) eqn:E; simpl.
    + apply String.eqb_eq in E. subst k'. now constructor.
    + constructor; [|now apply IH].
      intros Hin. apply keys_set_in in Hin. destruct Hin as [->|Hin].
      * now rewrite String.eqb_refl in E.
      * contradiction.
Qed.

Lemma keys_del_in (k k0 : string) (d : directory) :
  In k0 (keys (del k d)) -> In k0 (keys d).
Proof.
  induction d as [|[k' v'] t IH]; simpl; [tauto|].
  destruct (String.eqb k' k); simpl; intros H; [right; auto|].
  destruct H; auto.
Qed.

Lemma nodup_del (k : string) (d : directory) :
  NoDup (keys d) -> NoDup (keys (del k d)).
Proof.
  induction d as [|[k' v'] t IH]; simpl; intros H; [constructor|].
  inversion H as [|? ? Hnin Hnd]; subst.
  destruct (String.eqb k' k); simpl; [now apply IH|].
  constructor; [|now apply IH].
  intros Hin. apply keys_del_in in Hin. contradiction.
Qed.

End DictFacts.

(** Unfolds the monad so that a call reduces to its outcome. *)
Ltac step_m :=
  repeat progress (
    cbv beta iota zeta
        delta [bind ret raise print try_except get_students get_current_user
               set_students set_current_user getitem write_snapshot
               current_record negb] in *;
    cbn [final printed value students current_user disk data_file writable
         fst snd app] in *).

Lemma save_data_final (v : source) (w : World) :
  students (final (save_data v w)) = students w
  /\ current_user (final (save_data v w)) = current_user w
  /\ writable (disk (final (save_data v w))) = writable (disk w).
Proof.
  unfold save_data. destruct (writable (disk w)) eqn:E, v; step_m; auto.
Qed.

Lemma save_data_raises (v : source) (w : World) :
  save_raises v w = true <-> value (save_data v w) = Raise OSError.
Proof.
  unfold save_raises, save_data.
  destruct v, (writable (disk w)); step_m; simpl; split; congruence.
Qed.

Lemma save_data_returns (v : source) (w : World) :
  save_raises v w = false -> value (save_data v w) = Return tt.
Proof.
  unfold save_raises, save_data.
  destruct v, (writable (disk w)); step_m; simpl; congruence.
Qed.

(* ================================================================== *)
(** * The outcome of each method, case by case *)
(* ================================================================== *)

Lemma after_save_returns (v : source) (w1 : World) rest msg :
  save_raises v w1 = false ->
  after_save v w1 rest msg =
    mkOutcome (rest (final (save_data v w1)))
              (printed (save_data v w1) ++ [msg]) (Return tt).
Proof.
  intros H. unfold after_save. now rewrite (save_data_returns v w1 H).
Qed.

Lemma after_save_raises (v : source) (w1 : World) rest msg :
  save_raises v w1 = true ->
  after_save v w1 rest msg = mkOutcome w1 [] (Raise OSError).
Proof.
  unfold after_save, save_raises, save_data.
  destruct v; [discriminate|]. destruct (writable (disk w1)); [discriminate|].
  reflexivity.
Qed.


Section LoginCases.
Variables (v : source) (id_in password now : string) (w : World).
Let student_id := upper (strip id_in).

Lemma login_not_found :
  Dict.get student_id (students w) = None ->
  login v id_in password now w = mkOutcome w [ErrIdNotFound] (Return tt).
Proof.
  intros Hget. unfold login. fold student_id. step_m.
  unfold Dict.mem. rewrite Hget. reflexivity.
Qed.

Lemma login_bad_password (user : student) :
  Dict.get student_id (students w) = Some user ->
  password_hash user <> hash_password password ->
  login v id_in password now w = mkOutcome w [ErrIncorrectPassword] (Return tt).
Proof.
  intros Hget Hne. unfold login. fold student_id. step_m.
  unfold Dict.mem. repeat (rewrite Hget; step_m).
  apply String.eqb_neq in Hne. rewrite Hne. reflexivity.
Qed.

Lemma login_accepted (user : student) :
  Dict.get student_id (students w) = Some user ->
  password_hash user = hash_password password ->
  login v id_in password now w =
    after_save v
      (mkWorld (Dict.set student_id (record_login now user) (students w))
               (current_user w) (disk w))
      (set_user (Some student_id))
      (OkLoggedIn (name user)).
Proof.
  intros Hget Heq. unfold login, after_save. fold student_id. step_m.
  unfold Dict.mem. repeat (rewrite Hget; step_m).
  apply String.eqb_eq in Heq. rewrite Heq. step_m.
  destruct (value (save_data v _)); reflexivity.
Qed.

End LoginCases.

Section RegisterCases.
Variables (v : source) (name_in id_in email_in password now : string) (w : World).
Let name' := title (strip name_in).
Let student_id := upper (strip id_in).
Let email' := lower (strip email_in).

Lemma register_missing_field :
  name' = "" \/ student_id = "" \/ email' = "" \/ password = "" ->
  register v name_in id_in email_in password now w =
    mkOutcome w [ErrFieldsRequired] (Return tt).
Proof.
  intros H. unfold register. fold name' student_id email'.
  assert (E : negb (truthy name') || negb (truthy student_id)
              || negb (truthy email') || negb (truthy password) = true).
  { destruct H as [-> | [-> | [-> | ->]]]; simpl;
      rewrite ?orb_true_r; reflexivity. }
  rewrite E. reflexivity.
Qed.

Hypothesis all_given :
  name' <> "" /\ student_id <> "" /\ email' <> "" /\ password <> "".

Lemma all_given_test :
  negb (truthy name') || negb (truthy student_id)
  || negb (truthy email') || negb (truthy password) = false.
Proof.
  destruct all_given as [H1 [H2 [H3 H4]]].
  apply truthy_true in H1, H2, H3, H4. now rewrite H1, H2, H3, H4.
Qed.

Lemma register_weak_password :
  (len password < 6)%Z ->
  register v name_in id_in email_in password now w =
    mkOutcome w [ErrPasswordTooShort] (Return tt).
Proof.
  intros H. unfold register. fold name' student_id email'.
  rewrite all_given_test. apply Z.ltb_lt in H. rewrite H. reflexivity.
Qed.

Lemma register_invalid_email :
  (6 <= len password)%Z ->
  validate_email email' = false ->
  register v name_in id_in email_in password now w =
    mkOutcome w [ErrInvalidEmail] (Return tt).
Proof.
  intros H He. unfold register. fold name' student_id email'.
  rewrite all_given_test. apply Z.ltb_ge in H. rewrite H, He. reflexivity.
Qed.

Lemma register_duplicate :
  (6 <= len password)%Z ->
  validate_email email' = true ->
  Dict.mem student_id (students w) = true ->
  register v name_in id_in email_in password now w =
    mkOutcome w [ErrAlreadyRegistered student_id] (Return tt).
Proof.
  intros H He Hm. unfold register. fold name' student_id email'.
  rewrite all_given_test. apply Z.ltb_ge in H. rewrite H, He. step_m.
  rewrite Hm. reflexivity.
Qed.

Lemma register_accepted :
  (6 <= len password)%Z ->
  validate_email email' = true ->
  Dict.mem student_id (students w) = false ->
  register v name_in id_in email_in password now w =
    after_save v
      (mkWorld
         (Dict.set student_id
            (mkStudent name' email' (hash_password password) now 0 None)
            (students w))
         (current_user w) (disk w))
      (fun w' => w')
      (OkRegistered name').
Proof.
  intros H He Hm. unfold register, after_save. fold name' student_id email'.
  rewrite all_given_test. apply Z.ltb_ge in H. rewrite H, He. step_m.
  rewrite Hm. step_m.
  destruct (save_data v _) as [w' out [[]|e]]; reflexivity.
Qed.

End RegisterCases.

Section DeleteCases.
Variables (v : source) (id_in confirm_in : string) (w : World).
Let student_id := upper (strip id_in).

Lemma delete_not_found :
  Dict.get student_id (students w) = None ->
  delete_student v id_in confirm_in w = mkOutcome w [ErrIdNotFound] (Return tt).
Proof.
  intros Hget. unfold delete_student. fold student_id. step_m.
  unfold Dict.mem. rewrite Hget. reflexivity.
Qed.

Lemma delete_declined (user : student) :
  Dict.get student_id (students w) = Some user ->
  lower (strip confirm_in) <> "y" ->
  delete_student v id_in confirm_in w = mkOutcome w [Cancelled] (Return tt).
Proof.
  intros Hget Hno. unfold delete_student. fold student_id. step_m.
  unfold Dict.mem. repeat (rewrite Hget; step_m).
  apply String.eqb_neq in Hno. rewrite Hno. reflexivity.
Qed.

Lemma delete_confirmed (user : student) :
  Dict.get student_id (students w) = Some user ->
  lower (strip confirm_in) = "y" ->
  delete_student v id_in confirm_in w =
    after_save v
      (mkWorld (Dict.del student_id (students w)) (current_user w) (disk w))
      (clear_if_current id_in)
      (Deleted (name user)).
Proof.
  intros Hget Hy. unfold delete_student, after_save, clear_if_current.
  fold student_id. step_m.
  unfold Dict.mem. repeat (rewrite Hget; step_m). rewrite Hy, String.eqb_refl. step_m.
  destruct (save_data v _) as [w' out [[]|e]]; step_m; [|reflexivity].
  destruct (option_string_eqb (current_user w') (Some student_id));
    step_m; rewrite ?app_nil_r; destruct w'; reflexivity.
Qed.

End DeleteCases.

Lemma string_empty_dec (s : string) : {s = ""} + {s <> ""}.
Proof. destruct s; [left; reflexivity | right; discriminate]. Qed.

Lemma register_cases (v : source) (n i e p t : string) (w : World) :
  let o := register v n i e p t w in
  let student_id := upper (strip i) in
  rejection o w [ErrFieldsRequired; ErrPasswordTooShort; ErrInvalidEmail;
                 ErrAlreadyRegistered student_id]
  \/ ((title (strip n) <> "" /\ student_id <> ""
       /\ lower (strip e) <> "" /\ p <> "")
      /\ (6 <= len p)%Z
      /\ validate_email (lower (strip e)) = true
      /\ Dict.mem student_id (students w) = false
      /\ o = after_save v
               (mkWorld
                  (Dict.set student_id
                     (mkStudent (title (strip n)) (lower (strip e))
                                (hash_password p) t 0 None)
                     (students w))
                  (current_user w) (disk w))
               (fun w' => w')
               (OkRegistered (title (strip n)))).
Proof.
  intros o student_id. subst o. unfold rejection.
  destruct (string_empty_dec (title (strip n))) as [H1|H1];
    [left; eexists; split; [|apply register_missing_field; auto]; simpl; auto|].
  destruct (string_empty_dec student_id) as [H2|H2];
    [left; eexists; split; [|apply register_missing_field; auto]; simpl; auto|].
  destruct (string_empty_dec (lower (strip e))) as [H3|H3];
    [left; eexists; split; [|apply register_missing_field; auto]; simpl; auto|].
  destruct (string_empty_dec p) as [H4|H4];
    [left; eexists; split; [|apply register_missing_field; auto]; simpl; auto|].
  assert (Hall : title (strip n) <> "" /\ student_id <> ""
                 /\ lower (strip e) <> "" /\ p <> "") by auto.
  destruct (Z_lt_ge_dec (len p) 6) as [H5|H5];
    [left; eexists; split; [|apply register_weak_password; auto]; simpl; auto|].
  apply Z.ge_le in H5.
  destruct (validate_email (lower (strip e))) eqn:H6;
    [|left; eexists; split; [|apply register_invalid_email; auto]; simpl; auto].
  destruct (Dict.mem student_id (students w)) eqn:H7;
    [left; eexists; split; [|apply register_duplicate; auto]; simpl; auto|].
  right. split; [exact Hall|]. split; [exact H5|]. split; [reflexivity|].
  split; [reflexivity|].
  apply register_accepted; auto.
Qed.

Lemma login_cases (v : source) (i p t : string) (w : World) :
  let o := login v i p t w in
  let student_id := upper (strip i) in
  rejection o w [ErrIdNotFound; ErrIncorrectPassword]
  \/ (exists user,
        Dict.get student_id (students w) = Some user
        /\ password_hash user = hash_password p
        /\ o = after_save v
                 (mkWorld (Dict.set student_id (record_login t user) (students w))
                          (current_user w) (disk w))
                 (set_user (Some student_id))
                 (OkLoggedIn (name user))).
Proof.
  intros o student_id. subst o. unfold rejection.
  destruct (Dict.get student_id (students w)) as [user|] eqn:Hget.
  - destruct (string_dec (password_hash user) (hash_password p)) as [Heq|Hne].
    + right. exists user. split; [reflexivity|]. split; [exact Heq|].
      now apply login_accepted.
    + left. eexists. split; [|eapply login_bad_password; eauto]. simpl; auto.
  - left. eexists. split; [|eapply login_not_found; eauto]. simpl; auto.
Qed.

Lemma delete_cases (v : source) (i c : string) (w : World) :
  let o := delete_student v i c w in
  let student_id := upper (strip i) in
  rejection o w [ErrIdNotFound; Cancelled]
  \/ (exists user,
        Dict.get student_id (students w) = Some user
        /\ lower (strip c) = "y"
        /\ o = after_save v
                 (mkWorld (Dict.del student_id (students w))
                          (current_user w) (disk w))
                 (clear_if_current i)
                 (Deleted (name user))).
Proof.
  intros o student_id. subst o. unfold rejection.
  destruct (Dict.get student_id (students w)) as [user|] eqn:Hget.
  - destruct (string_dec (lower (strip c)) "y") as [Heq|Hne].
    + right. exists user. split; [reflexivity|]. split; [exact Heq|].
      now apply delete_confirmed.
    + left. eexists. split; [|eapply delete_declined; eauto]. simpl; auto.
  - left. eexists. split; [|eapply delete_not_found; eauto]. simpl; auto.
Qed.

Lemma save_raises_disk (v : source) (w w1 : World) :
  disk w1 = disk w -> save_raises v w1 = save_raises v w.
Proof. intros H. unfold save_raises. now rewrite H. Qed.

Lemma save_data_writable (v : source) (w : World) :
  writable (disk w) = true ->
  save_data v w =
    mkOutcome (mkWorld (students w) (current_user w)
                       (mkFs (Parsed (JObject (students w))) true))
              [] (Return tt).
Proof. intros H. unfold save_data, write_snapshot. now rewrite H. Qed.

(** A call that printed one rejection line did not report success. *)
Lemma rejection_not_success (o : outcome unit) (w : World) (msgs : list message)
    (ok : message -> Prop) :
  rejection o w msgs ->
  (forall m, In m msgs -> ~ ok m) ->
  forall m, In m (printed o) -> ~ ok m.
Proof.
  intros [msg [Hin ->]] Hno m [<-|[]]. now apply Hno.
Qed.

(* ================================================================== *)
(** * Properties *)
(* ================================================================== *)

(** C8. Declining the confirmation of a deletion changes nothing: when the
    ID exists and the answer, trimmed and lowercased, is not "y",
    [delete_student] leaves the directory, the snapshot and the session as
    they were, raises nothing and only reports the cancellation. The
    confirmation is asked inside [delete_student] itself. *)
Theorem delete_declined_is_noop
    (v : source) (id_in confirm_in : string) (w : World) :
  Dict.mem (upper (strip id_in)) (students w) = true ->
  lower (strip confirm_in) <> "y" ->
  delete_student v id_in confirm_in w = mkOutcome w [Cancelled] (Return tt).
Proof.
  intros Hmem Hno.
  apply DictFacts.mem_get in Hmem. destruct Hmem as [r Hr].
  now apply delete_declined with r.
Qed.

Lemma delete_declined_is_noop_witness :
  delete_student cw_py " s002" "yes" w2_ada = mkOutcome w2_ada [Cancelled] (Return tt).
Proof.
  apply (delete_declined_is_noop cw_py " s002" "yes" w2_ada).
  - reflexivity.
  - simpl. discriminate.
Defined.

(** C9. A query that is empty once trimmed finds nothing: [search_student]
    prints the warning and returns before looking at any record, whatever
    the directory holds. *)
Theorem search_empty_query_rejected (query_in : string) (w : World) :
  strip query_in = "" ->
  search_student query_in w = mkOutcome w [EmptySearchTerm] (Return tt)
  /\ found_lines (printed (search_student query_in w)) = [].
Proof.
  intros Hq. unfold search_student. rewrite Hq. simpl. split; reflexivity.
Qed.

Lemma search_empty_query_rejected_witness :
  search_student "   " w2 = mkOutcome w2 [EmptySearchTerm] (Return tt)
  /\ found_lines (printed (search_student "   " w2)) = [].
Proof.
  apply (search_empty_query_rejected "   " w2). reflexivity.
Defined.

(** C10. [logout] does not fail. In a state whose session is valid it
    raises nothing and leaves the directory and the snapshot alone; when a
    user is logged in the session becomes [None], and when nobody is the
    state is unchanged and the program only says so. *)
Theorem logout_never_fails (w : World) :
  session_valid w ->
  let o := logout w in
  value o = Return tt
  /\ students (final o) = students w
  /\ disk (final o) = disk w
  /\ (logged_in w = true ->
        current_user (final o) = None
        /\ exists student_id data,
             current_user w = Some student_id
             /\ Dict.get student_id (students w) = Some data
             /\ printed o = [Goodbye (name data)])
  /\ (logged_in w = false -> final o = w /\ printed o = [NoUserLoggedIn]).
Proof.
  intros Hval o. subst o. unfold logout.
  destruct (logged_in w) eqn:Hl.
  - unfold logged_in in Hl. destruct (current_user w) as [u|] eqn:Hu; [|discriminate].
    pose proof (Hval u Hu) as Hmem.
    apply DictFacts.mem_get in Hmem. destruct Hmem as [r Hr].
    step_m. rewrite Hu. step_m. rewrite Hr. step_m.
    split; [reflexivity|]. split; [reflexivity|]. split; [reflexivity|]. split.
    + intros _. split; [reflexivity|]. exists u, r. auto.
    + discriminate.
  - step_m.
    split; [reflexivity|]. split; [reflexivity|]. split; [reflexivity|]. split.
    + discriminate.
    + intros _. split; reflexivity.
Qed.

Lemma logout_never_fails_witness :
  value (logout w2_ada) = Return tt /\ current_user (final (logout w2_ada)) = None.
Proof.
  assert (Hval : session_valid w2_ada).
  { intros student_id H. injection H as <-. reflexivity. }
  destruct (logout_never_fails w2_ada Hval) as [Hv [_ [_ [Hin _]]]].
  split; [exact Hv | exact (proj1 (Hin eq_refl))].
Defined.



(** C2. [register] makes the four checks in order and reports the
    first that fails: a missing field; else a password shorter than six
    characters; else an e-mail that does not match the pattern; else an ID
    that is already a key of the directory. Whenever one of the four
    conditions holds the call is rejected with one of these errors, the
    directory is unchanged and nothing is written; in particular a second
    registration under an ID that normalizes to one just registered is
    rejected. *)
Theorem register_rejections
    (v : source) (name_in id_in email_in password now : string) (w : World) :
  let name' := title (strip name_in) in
  let student_id := upper (strip id_in) in
  let email' := lower (strip email_in) in
  let o := register v name_in id_in email_in password now w in
  let missing := name' = "" \/ student_id = "" \/ email' = "" \/ password = "" in
  (missing -> o = mkOutcome w [ErrFieldsRequired] (Return tt))
  /\ (~ missing -> (len password < 6)%Z ->
        o = mkOutcome w [ErrPasswordTooShort] (Return tt))
  /\ (~ missing -> (6 <= len password)%Z -> validate_email email' = false ->
        o = mkOutcome w [ErrInvalidEmail] (Return tt))
  /\ (~ missing -> (6 <= len password)%Z -> validate_email email' = true ->
        Dict.mem student_id (students w) = true ->
        o = mkOutcome w [ErrAlreadyRegistered student_id] (Return tt))
  /\ (missing \/ (len password < 6)%Z \/ validate_email email' = false
      \/ Dict.mem student_id (students w) = true ->
        rejection o w [ErrFieldsRequired; ErrPasswordTooShort; ErrInvalidEmail;
                       ErrAlreadyRegistered student_id]
        /\ final o = w /\ ~ register_succeeds o)
  /\ (register_succeeds o ->
        forall name2 id2 email2 password2 now2,
          upper (strip id2) = student_id ->
          let o2 := register v name2 id2 email2 password2 now2 (final o) in
          final o2 = final o /\ ~ register_succeeds o2).
Proof.
  intros name' student_id email' o missing.
  assert (Hgiven : ~ missing ->
            name' <> "" /\ student_id <> "" /\ email' <> "" /\ password <> "").
  { unfold missing. intros H. repeat split; intros E; apply H; auto. }
  assert (Hrej : forall w0 (o0 : outcome unit) sid,
            rejection o0 w0 [ErrFieldsRequired; ErrPasswordTooShort;
                             ErrInvalidEmail; ErrAlreadyRegistered sid] ->
            final o0 = w0 /\ ~ register_succeeds o0).
  { intros w0 o0 sid Hr. split; [destruct Hr as [m [_ ->]]; reflexivity|].
    intros [_ [n Hn]].
    refine (rejection_not_success o0 w0 _ (fun m => exists n, m = OkRegistered n)
              Hr _ _ Hn _); [|now exists n].
    intros m [<-|[<-|[<-|[<-|[]]]]] [n' Hn']; discriminate. }
  split; [intros H; now apply register_missing_field|].
  split; [intros H Hl; apply register_weak_password; auto|].
  split; [intros H Hl He; apply register_invalid_email; auto|].
  split; [intros H Hl He Hm; apply register_duplicate; auto|].
  split.
  - intros Hcond.
    destruct (register_cases v name_in id_in email_in password now w)
      as [Hr | [Hall [Hl [He [Hm _]]]]].
    + split; [exact Hr|]. exact (Hrej _ _ _ Hr).
    + exfalso. fold student_id email' name' in Hall, He, Hm.
      destruct Hcond as [Hmiss | [Hshort | [Hbad | Hdup]]].
      * unfold missing in Hmiss. tauto.
      * lia.
      * congruence.
      * congruence.
  - intros Hok name2 id2 email2 password2 now2 Hid o2.
    assert (Hmem : Dict.mem student_id (students (final o)) = true).
    { destruct (register_cases v name_in id_in email_in password now w)
        as [Hr | [_ [_ [_ [_ Ho]]]]].
      - destruct (proj2 (Hrej _ _ _ Hr) Hok).
      - fold o student_id in Ho. destruct Hok as [Hv _].
        rewrite Ho in Hv |- *. unfold after_save in *.
        set (w1 := mkWorld _ _ _) in *.
        destruct (save_data_final v w1) as [Hst _].
        destruct (value (save_data v w1)); [|discriminate].
        simpl. rewrite Hst. subst w1. simpl.
        unfold Dict.mem. now rewrite DictFacts.get_set_same. }
    destruct (register_cases v name2 id2 email2 password2 now2 (final o))
      as [Hr | [_ [_ [_ [Hm _]]]]].
    + exact (Hrej _ _ _ Hr).
    + rewrite Hid in Hm. congruence.
Qed.

Lemma register_rejections_witness :
  register student_system_py "bob" " s009 " "Bob@X.com" "abc" "t" w2
    = mkOutcome w2 [ErrPasswordTooShort] (Return tt)
  /\ register student_system_py "bob" " s002 " "Bob@X.com" "abcdef" "t" w2
    = mkOutcome w2 [ErrAlreadyRegistered "S002"] (Return tt).
Proof.
  split.
  - apply (register_rejections student_system_py "bob" " s009 " "Bob@X.com" "abc" "t" w2).
    + intros [H|[H|[H|H]]]; vm_compute in H; discriminate H.
    + reflexivity.
  - apply (register_rejections student_system_py "bob" " s002 " "Bob@X.com" "abcdef" "t" w2).
    + intros [H|[H|[H|H]]]; vm_compute in H; discriminate H.
    + vm_compute. discriminate.
    + vm_compute. reflexivity.
    + reflexivity.
Defined.

Lemma after_save_writable (v : source) (w1 : World) rest msg :
  writable (disk w1) = true ->
  after_save v w1 rest msg =
    mkOutcome
      (rest (mkWorld (students w1) (current_user w1)
                     (mkFs (Parsed (JObject (students w1))) true)))
      [msg] (Return tt).
Proof.
  intros H. unfold after_save. now rewrite (save_data_writable v w1 H).
Qed.

Lemma load_data_parsed_object (v : source) (w : World) (d : directory) :
  data_file (disk w) = Parsed (JObject d) ->
  load_data v w = mkOutcome w [] (Return (JObject d)).
Proof. intros H. unfold load_data. rewrite H. now destruct v. Qed.

Lemma succeeds_not_rejected (c : command) (o : outcome unit) (w : World)
    (msgs : list message) :
  rejection o w msgs ->
  (forall m, In m msgs ->
     forall n, m <> OkRegistered n /\ m <> OkLoggedIn n /\ m <> Deleted n) ->
  ~ succeeds c o.
Proof.
  intros [msg [Hin ->]] Hno Hs.
  destruct c; simpl in Hs; try contradiction;
    destruct Hs as [_ [n [Hn|[]]]]; subst msg;
    destruct (Hno _ Hin n) as [H1 [H2 H3]]; congruence.
Qed.

(** C3, counterexample. [student_system.py] started without a file, in a
    place where the file cannot be written: the registration is reported as
    a success after the error of [save_data] has been printed, the record is
    in memory and there is still no snapshot. *)
Lemma snapshot_as_stated_fails :
  ~ snapshot_as_stated student_system_py
      (Register "eve adams" "s003" "eve@x.org" "hunter22" "2024-01-03 08:00:00")
      (blank (mkFs Absent false)).
Proof.
  intros H.
  assert (Hok : succeeds
            (Register "eve adams" "s003" "eve@x.org" "hunter22" "2024-01-03 08:00:00")
            (dispatch student_system_py
               (Register "eve adams" "s003" "eve@x.org" "hunter22"
                         "2024-01-03 08:00:00")
               (blank (mkFs Absent false)))).
  { split; [vm_compute; reflexivity|].
    exists "Eve Adams". vm_compute. right. left. reflexivity. }
  specialize (H Hok). vm_compute in H. discriminate H.
Qed.

(** C3, amended. After a successful [register], [login] or
    [delete_student], on a disk that can be written, the snapshot holds
    exactly the directory in memory, and [load_data] on it returns that
    directory without a warning: each of the three rewrites the whole file
    after its mutation. *)
Theorem snapshot_matches_directory (v : source) (c : command) (w : World) :
  writable (disk w) = true ->
  let o := dispatch v c w in
  succeeds c o ->
  data_file (disk (final o)) = Parsed (JObject (students (final o)))
  /\ load_data v (final o)
     = mkOutcome (final o) [] (Return (JObject (students (final o)))).
Proof.
  intros Hw o Hs.
  assert (Hsnap : data_file (disk (final o)) = Parsed (JObject (students (final o)))).
  { subst o. destruct c; simpl in Hs; try contradiction; unfold dispatch in *.
    - destruct (register_cases v name_in id_in email_in password now w)
        as [Hr | [_ [_ [_ [_ Ho]]]]].
      + exfalso. refine (succeeds_not_rejected (Register "" "" "" "" "") _ _ _ Hr _ Hs).
        intros m [<-|[<-|[<-|[<-|[]]]]] n; repeat split; discriminate.
      + rewrite Ho, after_save_writable by exact Hw. reflexivity.
    - destruct (login_cases v id_in password now w)
        as [Hr | [user [_ [_ Ho]]]].
      + exfalso. refine (succeeds_not_rejected (Login "" "" "") _ _ _ Hr _ Hs).
        intros m [<-|[<-|[]]] n; repeat split; discriminate.
      + rewrite Ho, after_save_writable by exact Hw. reflexivity.
    - destruct (delete_cases v id_in confirm_in w)
        as [Hr | [user [_ [_ Ho]]]].
      + exfalso. refine (succeeds_not_rejected (Delete "" "") _ _ _ Hr _ Hs).
        intros m [<-|[<-|[]]] n; repeat split; discriminate.
      + rewrite Ho, after_save_writable by exact Hw.
        unfold clear_if_current. simpl.
        destruct (option_string_eqb _ _); reflexivity. }
  split; [exact Hsnap|].
  now apply load_data_parsed_object.
Qed.

Lemma snapshot_matches_directory_witness :
  students (final (dispatch student_system_py (Delete "s001" "Y") w2_ada))
    = [("S002", bob)]
  /\ load_data student_system_py
       (final (dispatch student_system_py (Delete "s001" "Y") w2_ada))
     = mkOutcome (final (dispatch student_system_py (Delete "s001" "Y") w2_ada))
                 [] (Return (JObject [("S002", bob)])).
Proof.
  assert (Hs : succeeds (Delete "s001" "Y")
                 (dispatch student_system_py (Delete "s001" "Y") w2_ada)).
  { split; [reflexivity|]. exists "Ada Lovelace". left. reflexivity. }
  destruct (snapshot_matches_directory student_system_py (Delete "s001" "Y")
              w2_ada eq_refl Hs) as [_ Hload].
  split; [reflexivity | exact Hload].
Defined.

(** The search loop prints one line per matching record, in the order of
    the directory, and returns whether it printed any. *)
Lemma search_loop_outcome (query : string) (items : directory) (found : bool)
    (w : World) :
  let hit := fun it : string * student =>
    contains query (lower (fst it)) || contains query (lower (name (snd it))) in
  search_loop query items found w =
    mkOutcome w (List.map found_line (filter hit items))
              (Return (found || existsb hit items)).
Proof.
  intros hit. revert found. induction items as [|[sid data] rest IH]; intros found.
  - simpl. unfold ret. now rewrite orb_false_r.
  - cbn [search_loop filter existsb List.map].
    change (contains query (lower sid) || contains query (lower (name data)))
      with (hit (sid, data)).
    destruct (hit (sid, data)).
    + step_m. rewrite IH. step_m. destruct found; reflexivity.
    + rewrite IH. destruct found; reflexivity.
Qed.

Lemma found_lines_map (l : directory) :
  found_lines (List.map found_line l) = List.map found_line l.
Proof.
  unfold found_lines. induction l as [|x l IH]; simpl; [reflexivity|].
  now rewrite IH.
Qed.

Lemma existsb_filter_nil {A} (f : A -> bool) (l : list A) :
  existsb f l = match filter f l with [] => false | _ => true end.
Proof.
  induction l as [|x l IH]; simpl; [reflexivity|].
  destruct (f x); simpl; [reflexivity | exact IH].
Qed.

Lemma lower_empty (s : string) : lower s = "" <-> s = "".
Proof. unfold lower. destruct s; simpl; split; intro H; congruence. Qed.

(** C7, counterexample. The empty query is a substring of every ID, yet
    [search_student] rejects it and reports no record. *)
Lemma search_as_stated_fails : ~ search_as_stated "" w2.
Proof.
  unfold search_as_stated. vm_compute. discriminate.
Qed.

(** C7, amended. The query is trimmed first. When the trimmed query is not
    empty, [search_student] reports exactly the records whose ID or name
    contains it, case-insensitively, in the order of the directory; when
    none does it prints that nothing matched. It raises nothing and leaves
    the state unchanged. *)
Theorem search_results (query_in : string) (w : World) :
  strip query_in <> "" ->
  let o := search_student query_in w in
  let hits := filter (matches (strip query_in)) (students w) in
  found_lines (printed o) = List.map found_line hits
  /\ printed o = (List.map found_line hits
                  ++ match hits with [] => [NoMatch] | _ => [] end)%list
  /\ final o = w
  /\ value o = Return tt.
Proof.
  intros Hq o hits.
  assert (Ho : o = mkOutcome w
                 (List.map found_line hits
                  ++ match hits with [] => [NoMatch] | _ => [] end)%list
                 (Return tt)).
  { subst o. unfold search_student.
    assert (Ht : truthy (lower (strip query_in)) = true).
    { apply truthy_true. intros E. exact (Hq (proj1 (lower_empty _) E)). }
    rewrite Ht. step_m. rewrite search_loop_outcome. step_m.
    cbn [orb]. rewrite existsb_filter_nil.
    fold (ci_contains (strip query_in)).
    change (filter _ (students w)) with hits.
    destruct hits; reflexivity. }
  rewrite Ho. cbn [printed final value].
  split; [|split; [reflexivity | split; reflexivity]].
  unfold found_lines. rewrite filter_app. fold (found_lines (List.map found_line hits)).
  rewrite found_lines_map. destruct hits; simpl; [reflexivity|].
  now rewrite app_nil_r.
Qed.

Lemma search_results_witness :
  printed (search_student " LOVE " w2)
  = [Found "Ada Lovelace" "S001" "ada@example.com"].
Proof.
  assert (Hq : strip " LOVE " <> "") by (vm_compute; discriminate).
  destruct (search_results " LOVE " w2 Hq) as [_ [Hp _]].
  exact Hp.
Defined.

(** [load_data] of [student_system.py]: always a dict, empty with a
    warning when the file is malformed, unreadable or not a mapping, and
    empty without one when there is no file. *)
Lemma load_data_student_system (w : World) :
  let o := load_data student_system_py w in
  final o = w
  /\ (exists d, value o = Return (JObject d))
  /\ (data_file (disk w) = Absent -> o = mkOutcome w [] (Return (JObject [])))
  /\ (data_file (disk w) = Malformed ->
        o = mkOutcome w [WarnUnreadable] (Return (JObject [])))
  /\ (data_file (disk w) = Unreadable ->
        o = mkOutcome w [WarnUnreadable] (Return (JObject [])))
  /\ (forall j, data_file (disk w) = Parsed j -> (forall d, j <> JObject d) ->
        o = mkOutcome w [WarnInvalidFormat] (Return (JObject [])))
  /\ (forall d, data_file (disk w) = Parsed (JObject d) ->
        o = mkOutcome w [] (Return (JObject d))).
Proof.
  intros o. subst o. unfold load_data.
  destruct (data_file (disk w)) as [| | |j] eqn:E.
  - repeat split; intros; try discriminate; try reflexivity; eexists; reflexivity.
  - repeat split; intros; try discriminate; try reflexivity; eexists; reflexivity.
  - repeat split; intros; try discriminate; try reflexivity; eexists; reflexivity.
  - destruct j; step_m;
      (split; [reflexivity|]); (split; [eauto|]);
      repeat (split; [discriminate|]);
      (split; [intros j Hj Hn; injection Hj as <-; try reflexivity;
               now destruct (Hn members)
              |intros d Hd; injection Hd as Hd; try discriminate Hd;
               now subst]).
Qed.

(** [load_data] of [cw.py] on a file that parses: whatever [json.load]
    returns, returned as it is and without a warning. *)
Lemma load_data_cw_parsed (j : json) (w : World) :
  data_file (disk w) = Parsed j ->
  load_data cw_py w = mkOutcome w [] (Return j).
Proof. intros H. unfold load_data. now rewrite H. Qed.

(** C6. On a snapshot whose top-level value is a JSON array,
    [load_data] of [cw.py] prints no warning and returns the array, not an
    empty directory; [load_data] of [student_system.py] warns and returns
    the empty directory on the same file. *)
Theorem cw_load_data_keeps_non_mapping :
  let fs := mkFs (Parsed (JArray [JString "S001"; JString "S002"])) true in
  load_data cw_py (blank fs)
    = mkOutcome (blank fs) [] (Return (JArray [JString "S001"; JString "S002"]))
  /\ load_data student_system_py (blank fs)
    = mkOutcome (blank fs) [WarnInvalidFormat] (Return (JObject [])).
Proof. split; reflexivity. Qed.

(* ------------------------------------------------------------------ *)
(** ** The session along the menu loop *)
(* ------------------------------------------------------------------ *)

Lemma view_loop_outcome (items : directory) (count : Z) (w : World) :
  final (view_loop count items w) = w
  /\ value (view_loop count items w) = Return tt.
Proof.
  revert count. induction items as [|[sid data] rest IH]; intros count.
  - split; reflexivity.
  - cbn [view_loop]. step_m. destruct (IH (count + 1)%Z) as [Hf Hv].
    rewrite Hv, Hf. split; reflexivity.
Qed.

Lemma view_all_students_final (w : World) : final (view_all_students w) = w.
Proof.
  unfold view_all_students. step_m. destruct (students w) as [|x l] eqn:E.
  - reflexivity.
  - apply view_loop_outcome.
Qed.

Lemma search_student_final (q : string) (w : World) :
  final (search_student q w) = w.
Proof.
  unfold search_student. destruct (negb (truthy (lower (strip q)))).
  - reflexivity.
  - step_m. rewrite search_loop_outcome. step_m.
    destruct (false || existsb _ _); reflexivity.
Qed.

Lemma current_record_final (w : World) : final (current_record w) = w.
Proof.
  unfold current_record. step_m. destruct (current_user w) as [u|]; step_m.
  - destruct (Dict.get u (students w)); reflexivity.
  - reflexivity.
Qed.

Lemma view_profile_final (w : World) : final (view_profile w) = w.
Proof.
  unfold view_profile. destruct (negb (logged_in w)); [reflexivity|].
  unfold bind. pose proof (current_record_final w) as H.
  destruct (current_record w) as [w' out [a|e]]; simpl in *; now subst.
Qed.

Lemma logout_final (w : World) :
  final (logout w) = w \/ final (logout w) = set_user None w.
Proof.
  unfold logout. destruct (logged_in w); [|now left].
  unfold bind. pose proof (current_record_final w) as H.
  destruct (current_record w) as [w' out [a|e]]; simpl in *; subst.
  - right. reflexivity.
  - left. reflexivity.
Qed.

Lemma status_final (w : World) : final (status w) = w.
Proof.
  unfold status. destruct (logged_in w); [|reflexivity].
  unfold bind. pose proof (current_record_final w) as H.
  destruct (current_record w) as [w' out [a|e]]; simpl in *; now subst.
Qed.

Lemma turn_final (v : source) (c : command) (w : World) :
  final (turn v c w) = if crashes w then w else final (dispatch v c w).
Proof.
  unfold turn, crashes, bind, try_except. pose proof (status_final w) as H.
  destruct (status w) as [w' out [a|e]]; simpl in *; subst; [|reflexivity].
  destruct (dispatch v c _) as [w'' out' [a'|e']]; reflexivity.
Qed.


Lemma after_save_final (v : source) (w1 : World) rest msg :
  final (after_save v w1 rest msg)
  = if save_raises v w1 then w1 else rest (final (save_data v w1)).
Proof.
  destruct (save_raises v w1) eqn:E.
  - now rewrite after_save_raises.
  - now rewrite after_save_returns.
Qed.

(** What a command does to the state: nothing, one of the three mutations
    followed by [save_data], or the end of the session. *)
Lemma dispatch_effect (v : source) (c : command) (w : World) :
  let o := dispatch v c w in
  final o = w
  \/ (exists n i e p t,
        c = Register n i e p t
        /\ Dict.mem (upper (strip i)) (students w) = false
        /\ o = after_save v
                 (mkWorld
                    (Dict.set (upper (strip i))
                       (mkStudent (title (strip n)) (lower (strip e))
                                  (hash_password p) t 0 None)
                       (students w))
                    (current_user w) (disk w))
                 (fun w' => w')
                 (OkRegistered (title (strip n))))
  \/ (exists i p t user,
        c = Login i p t
        /\ Dict.get (upper (strip i)) (students w) = Some user
        /\ password_hash user = hash_password p
        /\ o = after_save v
                 (mkWorld
                    (Dict.set (upper (strip i)) (record_login t user) (students w))
                    (current_user w) (disk w))
                 (set_user (Some (upper (strip i))))
                 (OkLoggedIn (name user)))
  \/ (exists i a user,
        c = Delete i a
        /\ Dict.get (upper (strip i)) (students w) = Some user
        /\ lower (strip a) = "y"
        /\ o = after_save v
                 (mkWorld (Dict.del (upper (strip i)) (students w))
                          (current_user w) (disk w))
                 (clear_if_current i)
                 (Deleted (name user)))
  \/ (c = Logout /\ final o = set_user None w).
Proof.
  intros o. subst o. destruct c; unfold dispatch.
  - destruct (register_cases v name_in id_in email_in password now w)
      as [[m [_ Ho]] | [_ [_ [_ [Hm Ho]]]]].
    + left. now rewrite Ho.
    + right. left. exists name_in, id_in, email_in, password, now. auto.
  - destruct (login_cases v id_in password now w)
      as [[m [_ Ho]] | [user [Hget [Heq Ho]]]].
    + left. now rewrite Ho.
    + right. right. left. exists id_in, password, now, user. auto.
  - left. apply view_all_students_final.
  - left. apply search_student_final.
  - destruct (delete_cases v id_in confirm_in w)
      as [[m [_ Ho]] | [user [Hget [Hy Ho]]]].
    + left. now rewrite Ho.
    + right. right. right. left. exists id_in, confirm_in, user. auto.
  - left. destruct (logged_in w); [apply view_profile_final | reflexivity].
  - destruct (logged_in w); [|now left].
    destruct (logout_final w) as [H|H]; [now left|].
    right. right. right. right. auto.
  - now left.
  - now left.
Qed.

Lemma option_string_eqb_eq (a b : option string) :
  option_string_eqb a b = true <-> a = b.
Proof.
  destruct a as [x|], b as [y|]; simpl; split; intros H;
    try congruence; try discriminate.
  - apply String.eqb_eq in H. now subst.
  - injection H as ->. apply String.eqb_refl.
Qed.

Lemma turn_session_valid (v : source) (c : command) (w : World) :
  save_raises v w = false ->
  session_valid w ->
  session_valid (final (turn v c w)).
Proof.
  intros Hs Hval. rewrite turn_final. destruct (crashes w); [exact Hval|].
  destruct (dispatch_effect v c w)
    as [H | [[n [i [e [p [t [_ [_ H]]]]]]]
       | [[i [p [t [user [_ [_ [_ H]]]]]]]
       | [[i [a [user [_ [_ [_ H]]]]]] | [_ H]]]]];
    rewrite H; clear H; try rewrite after_save_final;
    try (rewrite (save_raises_disk v w) by reflexivity; rewrite Hs).
  - exact Hval.
  - set (w1 := mkWorld _ _ _).
    destruct (save_data_final v w1) as [Hst [Hcu _]].
    intros k Hk. rewrite Hst. rewrite Hcu in Hk. subst w1. simpl in *.
    apply DictFacts.mem_set. now apply Hval.
  - set (w1 := mkWorld _ _ _).
    destruct (save_data_final v w1) as [Hst _].
    intros k Hk. unfold set_user in *. simpl in *. injection Hk as <-.
    rewrite Hst. subst w1. simpl. unfold Dict.mem.
    now rewrite DictFacts.get_set_same.
  - set (w1 := mkWorld _ _ _).
    destruct (save_data_final v w1) as [Hst [Hcu _]].
    unfold clear_if_current.
    destruct (option_string_eqb _ _) eqn:E; intros k Hk; simpl in Hk;
      [discriminate|].
    rewrite Hst. rewrite Hcu in Hk, E. subst w1. simpl in *.
    assert (Hne : k <> upper (strip i)).
    { intros ->. rewrite Hk in E. simpl in E.
      now rewrite String.eqb_refl in E. }
    unfold Dict.mem. rewrite DictFacts.get_del_other by exact Hne.
    apply Hval in Hk. exact Hk.
  - intros k Hk. discriminate Hk.
Qed.

Lemma turn_writable (v : source) (c : command) (w : World) :
  writable (disk (final (turn v c w))) = writable (disk w).
Proof.
  rewrite turn_final. destruct (crashes w); [reflexivity|].
  destruct (dispatch_effect v c w)
    as [H | [[n [i [e [p [t [_ [_ H]]]]]]]
       | [[i [p [t [user [_ [_ [_ H]]]]]]]
       | [[i [a [user [_ [_ [_ H]]]]]] | [_ H]]]]];
    rewrite H; clear H; try rewrite after_save_final; try reflexivity;
    set (w1 := mkWorld _ _ _);
    destruct (save_data_final v w1) as [_ [_ Hw]];
    (destruct (save_raises v w1); [reflexivity|]);
    unfold clear_if_current, set_user;
    try destruct (option_string_eqb _ _); simpl; rewrite Hw; reflexivity.
Qed.

Lemma init_session (v : source) (fs : filesystem) (w : World) :
  init v fs = Some w -> current_user w = None /\ disk w = fs.
Proof.
  unfold init. destruct (value (load_data v (blank fs))) as [[]|]; try discriminate.
  intros H. injection H as <-. split; reflexivity.
Qed.

Lemma reachable_session_valid (v : source) (w : World) :
  reachable v w -> save_raises v w = false -> session_valid w.
Proof.
  induction 1 as [fs w Hinit | w c Hr IH Hv]; intros Hs.
  - apply init_session in Hinit. destruct Hinit as [Hcu _].
    intros k Hk. congruence.
  - assert (Hs' : save_raises v w = false).
    { unfold save_raises in *. now rewrite turn_writable in Hs. }
    apply turn_session_valid; auto.
Qed.

(** C4, counterexample. Two students register, the first logs in, then the
    second logs in: the menu offers the login while a user is logged in and
    [login] replaces the current user, with no logout in between. *)
Lemma no_session_takeover_fails : ~ no_session_takeover student_system_py.
Proof.
  intros H.
  set (c1 := Register "Ada Lovelace" "s001" "ada@example.com" "secret1" "2024-01-01 10:00:00").
  set (c2 := Register "Bob" "s002" "bob@x.com" "abcdef" "2024-01-01 10:01:00").
  set (c3 := Login "S001" "secret1" "2024-01-01 10:05:00").
  set (c4 := Login "S002" "abcdef" "2024-01-01 10:06:00").
  set (s0 := blank fresh_disk).
  set (s1 := final (turn student_system_py c1 s0)).
  set (s2 := final (turn student_system_py c2 s1)).
  set (s3 := final (turn student_system_py c3 s2)).
  assert (R0 : reachable student_system_py s0).
  { apply (reach_init _ fresh_disk). reflexivity. }
  assert (R1 : reachable student_system_py s1).
  { apply reach_turn; [exact R0 | vm_compute; reflexivity]. }
  assert (R2 : reachable student_system_py s2).
  { apply reach_turn; [exact R1 | vm_compute; reflexivity]. }
  assert (R3 : reachable student_system_py s3).
  { apply reach_turn; [exact R2 | vm_compute; reflexivity]. }
  assert (E : "S002" = "S001").
  { apply (H s3 c4 "S001" "S002" R3); vm_compute; reflexivity. }
  discriminate E.
Qed.

(** C4, amended. The session changes in three ways only. A successful
    login sets it to the ID just authenticated whatever it was before: the
    loop offers the login while a user is logged in, so one user can replace
    another directly. A logout, and a confirmed deletion of the record of
    the current user, set it to [None]. *)
Theorem session_transitions (v : source) (c : command) (w : World) :
  current_user (final (turn v c w)) <> current_user w ->
  (exists id_in password now user,
      c = Login id_in password now
      /\ Dict.get (upper (strip id_in)) (students w) = Some user
      /\ password_hash user = hash_password password
      /\ current_user (final (turn v c w)) = Some (upper (strip id_in)))
  \/ (current_user (final (turn v c w)) = None
      /\ (c = Logout
          \/ exists id_in confirm_in,
               c = Delete id_in confirm_in
               /\ lower (strip confirm_in) = "y"
               /\ current_user w = Some (upper (strip id_in)))).
Proof.
  rewrite turn_final. destruct (crashes w); [congruence|].
  destruct (dispatch_effect v c w)
    as [H | [[n [i [e [p [t [_ [_ H]]]]]]]
       | [[i [p [t [user [Hc [Hget [Heq H]]]]]]]
       | [[i [a [user [Hc [_ [Hy H]]]]]] | [Hc H]]]]];
    rewrite H; clear H; try rewrite after_save_final.
  - congruence.
  - set (w1 := mkWorld _ _ _).
    destruct (save_data_final v w1) as [_ [Hcu _]].
    destruct (save_raises v w1); [simpl; congruence|].
    rewrite Hcu. simpl. congruence.
  - set (w1 := mkWorld _ _ _).
    destruct (save_raises v w1); [simpl; congruence|].
    intros _. left. exists i, p, t, user. auto.
  - set (w1 := mkWorld _ _ _).
    destruct (save_data_final v w1) as [_ [Hcu _]].
    destruct (save_raises v w1); [simpl; congruence|].
    unfold clear_if_current.
    destruct (option_string_eqb _ _) eqn:E.
    + intros _. right. split; [reflexivity|]. right. exists i, a.
      apply option_string_eqb_eq in E. rewrite Hcu in E. auto.
    + rewrite Hcu. simpl. congruence.
  - intros _. right. split; [reflexivity | now left].
Qed.

Lemma session_transitions_witness :
  exists id_in password now user,
    Login "s002" "abcdef" "2024-01-01 10:06:00" = Login id_in password now
    /\ Dict.get (upper (strip id_in)) (students w2_ada) = Some user
    /\ password_hash user = hash_password password
    /\ current_user
         (final (turn cw_py (Login "s002" "abcdef" "2024-01-01 10:06:00") w2_ada))
       = Some (upper (strip id_in)).
Proof.
  destruct (session_transitions cw_py
              (Login "s002" "abcdef" "2024-01-01 10:06:00") w2_ada)
    as [H | [H _]].
  - vm_compute. discriminate.
  - exact H.
  - vm_compute in H. discriminate H.
Defined.

(** C5. In every state the program reaches (for [cw.py], while the save
    does not raise), the current user, when set, is a key of the directory,
    and it stays so after any further turn of the loop; and a deletion that
    succeeds while the session names the deleted ID clears the session. *)
Theorem session_names_a_student (v : source) (w : World) :
  reachable v w ->
  save_raises v w = false ->
  session_valid w
  /\ (forall c, session_valid (final (turn v c w)))
  /\ (forall id_in confirm_in,
        current_user w = Some (upper (strip id_in)) ->
        delete_succeeds (delete_student v id_in confirm_in w) ->
        current_user (final (delete_student v id_in confirm_in w)) = None).
Proof.
  intros Hr Hs.
  pose proof (reachable_session_valid v w Hr Hs) as Hval.
  split; [exact Hval|]. split.
  - intros c. now apply turn_session_valid.
  - intros id_in confirm_in Hcu [Hv [n Hn]].
    destruct (delete_cases v id_in confirm_in w)
      as [[m [Hm Ho]] | [user [_ [_ Ho]]]].
    + rewrite Ho in Hn. destruct Hn as [Hn|[]]. subst m.
      destruct Hm as [Hm|[Hm|[]]]; discriminate Hm.
    + rewrite Ho in Hv |- *. unfold after_save in *.
      set (w1 := mkWorld _ _ _) in *.
      destruct (save_data_final v w1) as [_ [Hc _]].
      destruct (value (save_data v w1)); [|discriminate].
      simpl. unfold clear_if_current. rewrite Hc. subst w1. simpl.
      rewrite Hcu. simpl. rewrite String.eqb_refl. reflexivity.
Qed.

Lemma session_names_a_student_witness :
  current_user
    (final (turn student_system_py
              (Login "s001" "secret1" "2024-01-01 10:05:00") w2)) = Some "S001"
  /\ Dict.mem "S001"
       (students (final (turn student_system_py
                           (Login "s001" "secret1" "2024-01-01 10:05:00") w2)))
     = true
  /\ session_valid
       (final (turn student_system_py (Delete " s001 " "Y")
                 (final (turn student_system_py
                           (Login "s001" "secret1" "2024-01-01 10:05:00") w2))))
  /\ current_user
       (final (delete_student student_system_py " s001 " "Y"
                 (final (turn student_system_py
                           (Login "s001" "secret1" "2024-01-01 10:05:00") w2))))
     = None.
Proof.
  assert (Hr : reachable student_system_py
                 (final (turn student_system_py
                           (Login "s001" "secret1" "2024-01-01 10:05:00") w2))).
  { apply reach_turn; [|vm_compute; reflexivity].
    apply (reach_init _ (mkFs (Parsed (JObject two_students)) true)).
    reflexivity. }
  destruct (session_names_a_student student_system_py _ Hr eq_refl)
    as [Hval [Hturn Hdel]].
  assert (Hcu : current_user
                  (final (turn student_system_py
                            (Login "s001" "secret1" "2024-01-01 10:05:00") w2))
                = Some "S001") by (vm_compute; reflexivity).
  split; [exact Hcu|].
  split; [exact (Hval "S001" Hcu)|].
  split; [exact (Hturn (Delete " s001 " "Y"))|].
  apply (Hdel " s001 " "Y").
  - vm_compute. reflexivity.
  - split; [vm_compute; reflexivity|].
    exists "Ada Lovelace". vm_compute. left. reflexivity.
Defined.

(* ------------------------------------------------------------------ *)
(** ** The directory stays a dict *)
(* ------------------------------------------------------------------ *)

Lemma turn_keys_unique (v : source) (c : command) (w : World) :
  keys_unique w -> keys_unique (final (turn v c w)).
Proof.
  unfold keys_unique. intros Hk. rewrite turn_final.
  destruct (crashes w); [exact Hk|].
  destruct (dispatch_effect v c w)
    as [H | [[n [i [e [p [t [_ [_ H]]]]]]]
       | [[i [p [t [user [_ [_ [_ H]]]]]]]
       | [[i [a [user [_ [_ [_ H]]]]]] | [_ H]]]]];
    rewrite H; clear H; try rewrite after_save_final; try exact Hk;
    set (w1 := mkWorld _ _ _);
    destruct (save_data_final v w1) as [Hst _];
    assert (Hk1 : NoDup (Dict.keys (students w1)))
      by (subst w1; simpl;
          first [now apply DictFacts.nodup_set | now apply DictFacts.nodup_del]);
    (destruct (save_raises v w1); [exact Hk1|]);
    unfold clear_if_current, set_user;
    try destruct (option_string_eqb _ _); simpl; rewrite Hst; exact Hk1.
Qed.

(* ------------------------------------------------------------------ *)
(** ** The e-mail pattern *)
(* ------------------------------------------------------------------ *)

Module ReFacts.
Import Re.

Lemma append_empty (u v : string) : u ++ v = "" -> u = "" /\ v = "".
Proof. destruct u; simpl; [auto | discriminate]. Qed.

Lemma eps_inv (t : string) : lang Eps t -> t = "".
Proof. intros H. now inversion H. Qed.

Lemma class_inv (p : ascii -> bool) (t : string) :
  lang (Class p) t -> exists c, t = String c "" /\ p c = true.
Proof. intros H. inversion H; subst. eauto. Qed.

Lemma seq_inv (r s : regex) (t : string) :
  lang (Seq r s) t -> exists u v, t = u ++ v /\ lang r u /\ lang s v.
Proof. intros H. inversion H; subst. eauto. Qed.

Lemma alt_inv (r s : regex) (t : string) :
  lang (Alt r s) t -> lang r t \/ lang s t.
Proof. intros H. inversion H; subst; auto. Qed.

Lemma nullable_lang (r : regex) : nullable r = true <-> lang r "".
Proof.
  induction r as [| |p|r1 IH1 r2 IH2|r1 IH1 r2 IH2|r IH]; simpl.
  - split; [discriminate | intros H; inversion H].
  - split; [intros _; constructor | reflexivity].
  - split; [discriminate|]. intros H. apply class_inv in H.
    destruct H as [c [E _]]. discriminate.
  - rewrite andb_true_iff, IH1, IH2. split.
    + intros [H1 H2]. change "" with ("" ++ ""). now constructor.
    + intros H. apply seq_inv in H. destruct H as [u [v [E [Hu Hv]]]].
      symmetry in E. apply append_empty in E. destruct E; subst. auto.
  - rewrite orb_true_iff, IH1, IH2. split.
    + intros [H|H]; [now apply L_alt_l | now apply L_alt_r].
    + apply alt_inv.
  - split; [intros _; constructor | reflexivity].
Qed.

Lemma star_cons_inv (r : regex) (t : string) :
  lang (Star r) t ->
  forall c s, t = String c s ->
  exists u v, s = u ++ v /\ lang r (String c u) /\ lang (Star r) v.
Proof.
  intros H. remember (Star r) as r' eqn:Er.
  induction H as [| | | | | |r0 u v Hu IHu Hv IHv]; intros c1 s1 E;
    try discriminate Er; try discriminate E.
  injection Er as ->. destruct u as [|a u'].
  - simpl in E. now apply IHv.
  - simpl in E. injection E as -> <-. now exists u', v.
Qed.

Lemma deriv_lang (r : regex) (c : ascii) (s : string) :
  lang (deriv c r) s <-> lang r (String c s).
Proof.
  revert s. induction r as [| |p|r1 IH1 r2 IH2|r1 IH1 r2 IH2|r IH]; intros s; simpl.
  - split; intros H; inversion H.
  - split; intros H; inversion H.
  - destruct (p c) eqn:Hp; split; intros H.
    + apply eps_inv in H. subst. now constructor.
    + apply class_inv in H. destruct H as [c' [E _]]. injection E as <- ->.
      constructor.
    + inversion H.
    + apply class_inv in H. destruct H as [c' [E Hc]]. injection E as <- ->.
      congruence.
  - assert (Hleft : lang (Seq (deriv c r1) r2) s -> lang (Seq r1 r2) (String c s)).
    { intros H. apply seq_inv in H. destruct H as [u [v [-> [Hu Hv]]]].
      apply IH1 in Hu. change (String c (u ++ v)) with (String c u ++ v).
      now constructor. }
    assert (Hright : nullable r1 = true -> lang (deriv c r2) s ->
                     lang (Seq r1 r2) (String c s)).
    { intros Hn H. apply IH2 in H. apply nullable_lang in Hn.
      change (String c s) with ("" ++ String c s). now constructor. }
    assert (Hback : lang (Seq r1 r2) (String c s) ->
                    lang (Seq (deriv c r1) r2) s
                    \/ (nullable r1 = true /\ lang (deriv c r2) s)).
    { intros H. apply seq_inv in H. destruct H as [u [v [E [Hu Hv]]]].
      destruct u as [|a u'].
      - simpl in E. subst v. right.
        split; [now apply nullable_lang | now apply IH2].
      - simpl in E. injection E as <- ->. left.
        constructor; [now apply IH1 | exact Hv]. }
    destruct (nullable r1) eqn:Hn; split.
    + intros H. apply alt_inv in H. destruct H; auto.
    + intros H. destruct (Hback H) as [H'|[_ H']];
        [now apply L_alt_l | now apply L_alt_r].
    + exact Hleft.
    + intros H. destruct (Hback H) as [H'|[H' _]]; [exact H' | discriminate].
  - split; intros H; apply alt_inv in H; destruct H as [H|H];
      solve [apply L_alt_l; now apply IH1 | apply L_alt_r; now apply IH2].
  - split.
    + intros H. apply seq_inv in H. destruct H as [u [v [-> [Hu Hv]]]].
      apply IH in Hu. change (String c (u ++ v)) with (String c u ++ v).
      now constructor.
    + intros H. destruct (star_cons_inv r _ H c s eq_refl) as [u [v [-> [Hu Hv]]]].
      constructor; [now apply IH | exact Hv].
Qed.

(** The matcher decides the language of the expression. *)
Lemma fullmatch_lang (r : regex) (s : string) :
  fullmatch r s = true <-> lang r s.
Proof.
  revert r. induction s as [|c s IH]; intros r; simpl.
  - apply nullable_lang.
  - rewrite IH. apply deriv_lang.
Qed.

Lemma star_class_lang (p : ascii -> bool) (s : string) :
  lang (Star (Class p)) s <-> all p s = true.
Proof.
  split.
  - intros H. remember (Star (Class p)) as r eqn:Er.
    induction H as [| | | | | |r0 u v Hu IHu Hv IHv]; try discriminate Er.
    + reflexivity.
    + injection Er as ->. apply class_inv in Hu. destruct Hu as [c [-> Hc]].
      simpl. rewrite andb_true_iff. auto.
  - induction s as [|c s IH]; simpl.
    + intros _. constructor.
    + rewrite andb_true_iff. intros [Hc Hs].
      change (String c s) with (String c "" ++ s).
      constructor; [now constructor | auto].
Qed.

Lemma plus_class_lang (p : ascii -> bool) (s : string) :
  lang (Plus (Class p)) s <-> s <> "" /\ all p s = true.
Proof.
  unfold Plus. split.
  - intros H. apply seq_inv in H. destruct H as [u [v [-> [Hu Hv]]]].
    apply class_inv in Hu. destruct Hu as [c [-> Hc]].
    apply star_class_lang in Hv. simpl.
    split; [discriminate | now rewrite andb_true_iff].
  - intros [Hne Hall]. destruct s as [|c s]; [congruence|].
    simpl in Hall. rewrite andb_true_iff in Hall. destruct Hall as [Hc Hs].
    change (String c s) with (String c "" ++ s).
    constructor; [now constructor | now apply star_class_lang].
Qed.

Lemma atleast2_class_lang (p : ascii -> bool) (s : string) :
  lang (AtLeast2 (Class p)) s <-> (2 <= String.length s)%nat /\ all p s = true.
Proof.
  unfold AtLeast2. split.
  - intros H. apply seq_inv in H. destruct H as [u [v [-> [Hu Hv]]]].
    apply class_inv in Hu. destruct Hu as [c [-> Hc]].
    apply (plus_class_lang p v) in Hv.
    destruct Hv as [Hne Hall]. destruct v as [|b v]; [congruence|]. simpl.
    split; [lia|]. simpl in Hall. now rewrite andb_true_iff.
  - intros [Hlen Hall]. destruct s as [|a [|b s]]; simpl in Hlen; try lia.
    change (String a (String b s)) with (String a "" ++ String b s).
    simpl in Hall. rewrite !andb_true_iff in Hall. destruct Hall as [Ha [Hb Hs]].
    constructor; [now constructor|].
    apply (plus_class_lang p (String b s)). split; [discriminate|].
    simpl. now rewrite Hb.
Qed.

End ReFacts.

(** X9. [validate_email] accepts exactly local-part [@] domain [.] label, where
    the local part is a non-empty run of letters, digits and [._%+-], the
    domain a non-empty run of letters, digits, [.] and [-], and the last
    label at least two letters (a newline may end the string, as [$] allows). *)
Lemma validate_email_shape (e : string) :
  validate_email e = true <->
  exists local_part domain label tail,
    e = local_part ++ "@" ++ domain ++ "." ++ label ++ tail
    /\ local_part <> "" /\ Re.all local_char local_part = true
    /\ domain <> "" /\ Re.all domain_char domain = true
    /\ (2 <= String.length label)%nat /\ Re.all is_alpha label = true
    /\ (tail = "" \/ tail = String "010" "").
Proof.
  unfold validate_email, pattern. rewrite ReFacts.fullmatch_lang. split.
  - intros H.
    apply ReFacts.seq_inv in H. destruct H as [l [r1 [-> [Hl H]]]].
    apply ReFacts.seq_inv in H. destruct H as [a [r2 [-> [Ha H]]]].
    apply ReFacts.seq_inv in H. destruct H as [d [r3 [-> [Hd H]]]].
    apply ReFacts.seq_inv in H. destruct H as [o [r4 [-> [Ho H]]]].
    apply ReFacts.seq_inv in H. destruct H as [t [r5 [-> [Ht H]]]].
    apply ReFacts.plus_class_lang in Hl, Hd.
    apply ReFacts.atleast2_class_lang in Ht.
    apply ReFacts.class_inv in Ha, Ho.
    destruct Ha as [c [-> Hc]]. apply Ascii.eqb_eq in Hc. subst c.
    destruct Ho as [c [-> Hc]]. apply Ascii.eqb_eq in Hc. subst c.
    exists l, d, t, r5. split; [reflexivity|].
    destruct Hl, Hd, Ht. repeat (split; [assumption|]).
    apply ReFacts.alt_inv in H. destruct H as [H|H].
    + apply ReFacts.eps_inv in H. now left.
    + apply ReFacts.class_inv in H. destruct H as [c [-> Hc]].
      apply Ascii.eqb_eq in Hc. subst c. now right.
  - intros [l [d [t [tail [-> [Hl1 [Hl2 [Hd1 [Hd2 [Ht1 [Ht2 Htail]]]]]]]]]]].
    constructor; [now apply ReFacts.plus_class_lang|].
    change ("@" ++ d ++ "." ++ t ++ tail)
      with (String "@" "" ++ (d ++ "." ++ t ++ tail)).
    constructor; [constructor; apply Ascii.eqb_refl|].
    constructor; [now apply ReFacts.plus_class_lang|].
    change ("." ++ t ++ tail) with (String "." "" ++ (t ++ tail)).
    constructor; [constructor; apply Ascii.eqb_refl|].
    constructor; [now apply ReFacts.atleast2_class_lang|].
    unfold Re.Dollar. destruct Htail as [->| ->].
    + apply Re.L_alt_l. constructor.
    + apply Re.L_alt_r. constructor. reflexivity.
Qed.

(* ------------------------------------------------------------------ *)
(** ** Checks of the model on known values *)
(* ------------------------------------------------------------------ *)

Example sha256_abc :
  hash_password "abc"
  = "ba7816bf8f01cfea414140de5dae2223b00361a396177a9cb410ff61f20015ad".
Proof. vm_compute. reflexivity. Qed.

Example sha256_empty :
  hash_password ""
  = "e3b0c44298fc1c149afbf4c8996fb92427ae41e4649b934ca495991b7852b855".
Proof. vm_compute. reflexivity. Qed.

Example sha256_two_blocks :
  hash_password "abcdbcdecdefdefgefghfghighijhijkijkljklmklmnlmnomnopnopq"
  = "248d6a61d20638b8e5c026930c3e6039a33ce45964ff2167f6ecedd419db06c1".
Proof. vm_compute. reflexivity. Qed.

Example title_words : title "ada lOVElace o'neil" = "Ada Lovelace O'Neil".
Proof. reflexivity. Qed.

Example strip_both_ends : strip "  s001 " = "s001".
Proof. reflexivity. Qed.

Example emails :
  validate_email "ada@example.com" = true
  /\ validate_email "not-an-email" = false
  /\ validate_email "a@b.c" = false
  /\ validate_email "a b@x.org" = false.
Proof. vm_compute. repeat split. Qed.

(** When the file cannot be written. [student_system.py] reports the error
    and carries on: the registration is in memory only. *)
Example save_failure_student_system :
  let w := mkWorld two_students None (mkFs Absent false) in
  let o := register student_system_py "eve" "s003" "eve@x.org" "hunter22" "2024-01-03 08:00:00" w in
  printed o = [ErrSaving; OkRegistered "Eve"]
  /\ value o = Return tt
  /\ Dict.mem "S003" (students (final o)) = true
  /\ data_file (disk (final o)) = Absent.
Proof. vm_compute. repeat split. Qed.

(** [cw.py] lets the error escape from [save_data]: a deletion of the
    current user is caught by the loop before the session is cleared, and
    the next status line raises outside the [try]. *)
Example save_failure_cw :
  let w := mkWorld two_students (Some "S001") (mkFs Absent false) in
  let o := turn cw_py (Delete "s001" "y") w in
  printed o = [StatusLoggedIn "Ada Lovelace" "S001"; Unexpected OSError]
  /\ current_user (final o) = Some "S001"
  /\ Dict.mem "S001" (students (final o)) = false
  /\ crashes (final o) = true.
Proof. vm_compute. repeat split. Qed.

(** The scenario of the specification: a registration, a login, a wrong
    password, a duplicate ID, an invalid e-mail. *)
Example scenario :
  printed
    (run student_system_py
       [ Register "Ada Lovelace" "s001" "ada@example.com" "secret1" "2024-01-01 10:00:00";
         Login "S001" "secret1" "2024-01-01 10:05:00";
         Login "s001" "wrong" "2024-01-01 10:06:00";
         Register "Bob" "S001" "bob@x.com" "abcdef" "2024-01-01 10:07:00";
         Register "A" "B" "not-an-email" "abcdef" "2024-01-01 10:08:00";
         ViewAll ]
       (blank fresh_disk))
  = [ StatusGuest; OkRegistered "Ada Lovelace";
      StatusGuest; OkLoggedIn "Ada Lovelace";
      StatusLoggedIn "Ada Lovelace" "S001"; ErrIncorrectPassword;
      StatusLoggedIn "Ada Lovelace" "S001"; ErrAlreadyRegistered "S001";
      StatusLoggedIn "Ada Lovelace" "S001"; ErrInvalidEmail;
      StatusLoggedIn "Ada Lovelace" "S001";
      StudentLine 1 "S001"
        (mkStudent "Ada Lovelace" "ada@example.com"
           "5b11618c2e44027877d0cd0921ed166b9f176f50587fc91e7534dd2946db77d6"
           "2024-01-01 10:00:00" 1 (Some "2024-01-01 10:05:00")) ].
Proof. vm_compute. reflexivity. Qed.

(* ================================================================== *)
(** * Further properties of the methods *)
(* ================================================================== *)

(* ------------------------------------------------------------------ *)
(** ** Normal form of a student ID *)
(* ------------------------------------------------------------------ *)

Lemma to_upper_space (c : ascii) : is_space (to_upper c) = is_space c.
Proof.
  destruct c as [b0 b1 b2 b3 b4 b5 b6 b7];
    destruct b0, b1, b2, b3, b4, b5, b6, b7; reflexivity.
Qed.

Lemma to_upper_idem (c : ascii) : to_upper (to_upper c) = to_upper c.
Proof.
  destruct c as [b0 b1 b2 b3 b4 b5 b6 b7];
    destruct b0, b1, b2, b3, b4, b5, b6, b7; reflexivity.
Qed.

Lemma upper_idem (s : string) : upper (upper s) = upper s.
Proof.
  unfold upper. induction s as [|c s IH]; simpl; [reflexivity|].
  now rewrite to_upper_idem, IH.
Qed.

Lemma lstrip_upper (s : string) : lstrip (upper s) = upper (lstrip s).
Proof.
  unfold upper. induction s as [|c s IH]; simpl; [reflexivity|].
  rewrite to_upper_space. destruct (is_space c); [exact IH | reflexivity].
Qed.

Lemma rstrip_upper (s : string) : rstrip (upper s) = upper (rstrip s).
Proof.
  unfold upper. induction s as [|c s IH]; simpl; [reflexivity|].
  rewrite IH, to_upper_space. destruct (rstrip s); simpl.
  - destruct (is_space c); reflexivity.
  - reflexivity.
Qed.

Lemma strip_upper (s : string) : strip (upper s) = upper (strip s).
Proof. unfold strip. now rewrite lstrip_upper, rstrip_upper. Qed.

(** What [lstrip] returns does not start with whitespace. *)
Lemma lstrip_head (s : string) :
  lstrip s = "" \/ exists c t, lstrip s = String c t /\ is_space c = false.
Proof.
  induction s as [|c s IH]; simpl; [now left|].
  destruct (is_space c) eqn:E; [exact IH|].
  right. now exists c, s.
Qed.

Lemma rstrip_idem (s : string) : rstrip (rstrip s) = rstrip s.
Proof.
  induction s as [|c s IH]; simpl; [reflexivity|].
  destruct (rstrip s) as [|a r] eqn:E.
  - destruct (is_space c) eqn:Hc; simpl; [reflexivity|]. now rewrite Hc.
  - simpl. simpl in IH. destruct (rstrip r) as [|a' r'] eqn:E'.
    + destruct (is_space a); [discriminate IH|]. injection IH as <-. reflexivity.
    + injection IH as <-. reflexivity.
Qed.

Lemma lstrip_rstrip (s : string) :
  lstrip s = s -> lstrip (rstrip s) = rstrip s.
Proof.
  destruct s as [|c s]; [reflexivity|]. simpl.
  destruct (is_space c) eqn:Hc.
  - intros H. exfalso.
    destruct (lstrip_head s) as [E|[a [t [E Ha]]]]; rewrite E in H.
    + discriminate H.
    + injection H as -> _. congruence.
  - intros _. destruct (rstrip s); simpl; now rewrite Hc.
Qed.

Lemma lstrip_idem (s : string) : lstrip (lstrip s) = lstrip s.
Proof.
  induction s as [|c s IH]; simpl; [reflexivity|].
  destruct (is_space c) eqn:Hc; [exact IH|]. simpl. now rewrite Hc.
Qed.

Lemma strip_idem (s : string) : strip (strip s) = strip s.
Proof.
  unfold strip.
  rewrite (lstrip_rstrip (lstrip s)) by apply lstrip_idem.
  apply rstrip_idem.
Qed.

(** [s.strip().upper()] is a normal form: applying it again changes nothing. *)
Lemma normal_form_idem (s : string) :
  upper (strip (upper (strip s))) = upper (strip s).
Proof. now rewrite strip_upper, strip_idem, upper_idem. Qed.

(* ------------------------------------------------------------------ *)
(** ** The whole loop *)
(* ------------------------------------------------------------------ *)


Lemma run_cons (v : source) (c : command) (rest : list command) (w : World) :
  c <> Exit -> run v (c :: rest) w = (turn v c ;; run v rest) w.
Proof. intros H. destruct c; try reflexivity. congruence. Qed.

Lemma bind_final {A B} (m : M A) (k : A -> M B) (w : World) :
  final (bind m k w)
  = match value (m w) with
    | Return a => final (k a (final (m w)))
    | Raise _ => final (m w)
    end.
Proof. unfold bind. destruct (value (m w)); reflexivity. Qed.


Lemma command_exit_dec (c : command) : {c = Exit} + {c <> Exit}.
Proof. destruct c; (left; reflexivity) || (right; discriminate). Qed.

(** What every turn keeps, the whole loop keeps. *)
Lemma run_invariant (v : source) (P : World -> Prop) :
  (forall c w, P w -> P (final (turn v c w))) ->
  forall cmds w, P w -> P (final (run v cmds w)).
Proof.
  intros Hturn. induction cmds as [|c rest IH]; intros w Hw.
  - exact Hw.
  - destruct (command_exit_dec c) as [->|Hc].
    + apply Hturn, Hw.
    + rewrite run_cons by exact Hc. rewrite bind_final.
      destruct (value (turn v c w)) as [[]|e].
      * apply IH, Hturn, Hw.
      * apply Hturn, Hw.
Qed.




(** X7. The choices that only display (the list, a search, the profile,
    the exit and an unknown choice) leave the directory, the session and the
    file exactly as they were, in any state. *)
Theorem read_only_commands_change_nothing
    (v : source) (c : command) (w : World) :
  read_only c = true -> final (turn v c w) = w.
Proof.
  intros Hc. rewrite turn_final. destruct (crashes w); [reflexivity|].
  destruct c; try discriminate Hc; unfold dispatch.
  - apply view_all_students_final.
  - apply search_student_final.
  - destruct (logged_in w); [apply view_profile_final | reflexivity].
  - reflexivity.
  - reflexivity.
Qed.

Lemma read_only_commands_change_nothing_witness :
  final (turn cw_py (Search "love") w2_ada) = w2_ada
  /\ final (turn cw_py ViewProfile w2_ada) = w2_ada.
Proof.
  split.
  - apply (read_only_commands_change_nothing cw_py (Search "love") w2_ada).
    reflexivity.
  - apply (read_only_commands_change_nothing cw_py ViewProfile w2_ada).
    reflexivity.
Defined.

(** X15. Choice '0' ends the loop: what is typed after it is never
    executed. *)
Theorem run_stops_at_exit
    (v : source) (before after : list command) (w : World) :
  run v (before ++ Exit :: after) w = run v (before ++ [Exit]) w.
Proof.
  revert w. induction before as [|c rest IH]; intros w.
  - reflexivity.
  - destruct (command_exit_dec c) as [->|Hc]; [reflexivity|].
    cbn [app]. rewrite !run_cons by exact Hc.
    unfold bind. destruct (value (turn v c w)); [|reflexivity].
    now rewrite IH.
Qed.

(* ------------------------------------------------------------------ *)
(** ** Registration and deletion *)
(* ------------------------------------------------------------------ *)

Lemma set_new_key_appends (k : string) (r : student) (d : directory) :
  Dict.mem k d = false -> Dict.set k r d = (d ++ [(k, r)])%list.
Proof.
  unfold Dict.mem. induction d as [|[k' r'] t IH]; simpl; [reflexivity|].
  destruct (String.eqb k' k); [discriminate|].
  intros H. now rewrite IH.
Qed.

Lemma del_is_filter (k : string) (d : directory) :
  Dict.del k d = filter (fun kr => negb (String.eqb (fst kr) k)) d.
Proof.
  induction d as [|[k' r'] t IH]; simpl; [reflexivity|].
  destruct (String.eqb k' k); simpl; now rewrite IH.
Qed.

Lemma registration_not_rejected (o : outcome unit) (w : World) (sid : string) :
  rejection o w [ErrFieldsRequired; ErrPasswordTooShort; ErrInvalidEmail;
                 ErrAlreadyRegistered sid] ->
  ~ register_succeeds o.
Proof.
  intros Hr [_ [n Hn]].
  refine (rejection_not_success o w _ (fun m => exists n, m = OkRegistered n)
            Hr _ _ Hn _); [|now exists n].
  intros m [<-|[<-|[<-|[<-|[]]]]] [n' Hn']; discriminate.
Qed.

Lemma deletion_not_rejected (o : outcome unit) (w : World) :
  rejection o w [ErrIdNotFound; Cancelled] -> ~ delete_succeeds o.
Proof.
  intros Hr [_ [n Hn]].
  refine (rejection_not_success o w _ (fun m => exists n, m = Deleted n)
            Hr _ _ Hn _); [|now exists n].
  intros m [<-|[<-|[]]] [n' Hn']; discriminate.
Qed.

Lemma after_save_succeeds (v : source) (w1 : World) rest msg :
  save_raises v w1 = false ->
  value (after_save v w1 rest msg) = Return tt
  /\ In msg (printed (after_save v w1 rest msg))
  /\ students (final (after_save v w1 rest msg)) = students (rest (final (save_data v w1)))
  /\ final (after_save v w1 rest msg) = rest (final (save_data v w1)).
Proof.
  intros H. rewrite after_save_returns by exact H. simpl.
  repeat split. apply in_or_app. right. now left.
Qed.

(** X1. [register] accepts a registration exactly when the four fields
    are non-empty after normalization, the password has at least six
    characters, the e-mail matches the pattern and the ID is new (and, for
    [cw.py], the save does not raise). It then adds one record at the end of
    the directory, with the normalized fields, the digest of the password, a
    counter at 0 and no last login, and leaves the session as it was. *)
Theorem register_accepts
    (v : source) (name_in id_in email_in password now : string) (w : World) :
  save_raises v w = false ->
  let name' := title (strip name_in) in
  let student_id := upper (strip id_in) in
  let email' := lower (strip email_in) in
  let o := register v name_in id_in email_in password now w in
  let record := mkStudent name' email' (hash_password password) now 0 None in
  (register_succeeds o <->
     (name' <> "" /\ student_id <> "" /\ email' <> "" /\ password <> "")
     /\ (6 <= len password)%Z
     /\ validate_email email' = true
     /\ Dict.mem student_id (students w) = false)
  /\ (register_succeeds o ->
        students (final o) = (students w ++ [(student_id, record)])%list
        /\ Dict.get student_id (students (final o)) = Some record
        /\ current_user (final o) = current_user w
        /\ printed o = (printed (save_data v w) ++ [OkRegistered name'])%list).
Proof.
  intros Hs name' student_id email' o record.
  pose proof (register_cases v name_in id_in email_in password now w) as Hc.
  cbv zeta in Hc. fold name' student_id email' in Hc. fold record in Hc. fold o in Hc.
  assert (Hacc : (name' <> "" /\ student_id <> "" /\ email' <> "" /\ password <> "")
                 -> (6 <= len password)%Z -> validate_email email' = true
                 -> Dict.mem student_id (students w) = false ->
                 o = after_save v
                       (mkWorld (Dict.set student_id record (students w))
                                (current_user w) (disk w))
                       (fun w' => w') (OkRegistered name')).
  { intros H1 H2 H3 H4. now apply register_accepted. }
  split.
  - split.
    + intros Hok. destruct Hc as [Hr | [Hall [Hl [He [Hm _]]]]].
      * destruct (registration_not_rejected _ _ _ Hr Hok).
      * auto.
    + intros [Hall [Hl [He Hm]]]. rewrite (Hacc Hall Hl He Hm).
      destruct (after_save_succeeds v
                  (mkWorld (Dict.set student_id record (students w))
                           (current_user w) (disk w))
                  (fun w' => w') (OkRegistered name') Hs) as [Hv [Hin _]].
      split; [exact Hv | now exists name'].
  - intros Hok. destruct Hc as [Hr | [Hall [Hl [He [Hm Ho]]]]].
    + destruct (registration_not_rejected _ _ _ Hr Hok).
    + rewrite Ho. rewrite after_save_returns by exact Hs.
      set (w1 := mkWorld _ _ _).
      destruct (save_data_final v w1) as [Hst [Hcu _]].
      cbn [final printed]. rewrite Hst. subst w1. cbn [students].
      split; [now apply set_new_key_appends|].
      split; [apply DictFacts.get_set_same|].
      split; [exact Hcu|].
      f_equal. unfold save_data. cbn [disk].
      destruct (writable (disk w)), v; reflexivity.
Qed.

Lemma register_accepts_witness :
  register_succeeds
    (register student_system_py "eve adams" " s003 " "Eve@X.org" "hunter22"
              "2024-01-03 08:00:00" w2)
  /\ List.length
       (students
          (final (register student_system_py "eve adams" " s003 " "Eve@X.org"
                           "hunter22" "2024-01-03 08:00:00" w2))) = 3%nat.
Proof.
  destruct (register_accepts student_system_py "eve adams" " s003 " "Eve@X.org"
              "hunter22" "2024-01-03 08:00:00" w2 eq_refl) as [Hiff Heff].
  assert (Hok : register_succeeds
                  (register student_system_py "eve adams" " s003 " "Eve@X.org"
                            "hunter22" "2024-01-03 08:00:00" w2)).
  { apply Hiff. split; [|split; [|split]].
    - repeat split; vm_compute; discriminate.
    - vm_compute. discriminate.
    - vm_compute. reflexivity.
    - reflexivity. }
  split; [exact Hok|].
  destruct (Heff Hok) as [Hst _]. rewrite Hst. reflexivity.
Defined.

(** X2. [delete_student] deletes exactly when the ID is a key of the
    directory and the answer is "y" after trimming and lowercasing (and, for
    [cw.py], the save does not raise). It then removes that record and no
    other, keeps the order of the rest, and clears the session when, and
    only when, the session named the deleted ID. *)
Theorem delete_removes_one_record
    (v : source) (id_in confirm_in : string) (w : World) :
  save_raises v w = false ->
  let student_id := upper (strip id_in) in
  let o := delete_student v id_in confirm_in w in
  (delete_succeeds o <->
     Dict.mem student_id (students w) = true /\ lower (strip confirm_in) = "y")
  /\ (delete_succeeds o ->
        students (final o)
        = filter (fun kr => negb (String.eqb (fst kr) student_id)) (students w)
        /\ Dict.mem student_id (students (final o)) = false
        /\ (forall k, k <> student_id ->
              Dict.get k (students (final o)) = Dict.get k (students w))
        /\ current_user (final o)
           = (if option_string_eqb (current_user w) (Some student_id)
              then None else current_user w)).
Proof.
  intros Hs student_id o.
  pose proof (delete_cases v id_in confirm_in w) as Hc.
  cbv zeta in Hc. fold student_id in Hc. fold o in Hc.
  split.
  - split.
    + intros Hok. destruct Hc as [Hr | [user [Hget [Hy _]]]].
      * destruct (deletion_not_rejected _ _ Hr Hok).
      * split; [|exact Hy]. apply DictFacts.mem_get. now exists user.
    + intros [Hm Hy]. apply DictFacts.mem_get in Hm. destruct Hm as [user Hget].
      unfold o. rewrite (delete_confirmed v id_in confirm_in w user Hget Hy).
      destruct (after_save_succeeds v
                  (mkWorld (Dict.del student_id (students w))
                           (current_user w) (disk w))
                  (clear_if_current id_in) (Deleted (name user)) Hs)
        as [Hv [Hin _]].
      split; [exact Hv | now exists (name user)].
  - intros Hok. destruct Hc as [Hr | [user [Hget [Hy Ho]]]].
    + destruct (deletion_not_rejected _ _ Hr Hok).
    + rewrite Ho. rewrite after_save_returns by exact Hs.
      set (w1 := mkWorld _ _ _).
      destruct (save_data_final v w1) as [Hst [Hcu _]].
      cbn [final]. unfold clear_if_current. fold student_id. rewrite Hcu.
      assert (Hstud : students
                (if option_string_eqb (current_user w1) (Some student_id)
                 then set_user None (final (save_data v w1))
                 else final (save_data v w1))
              = Dict.del student_id (students w)).
      { destruct (option_string_eqb _ _); simpl; rewrite Hst; reflexivity. }
      rewrite Hstud.
      split; [apply del_is_filter|].
      split; [apply DictFacts.mem_false_get, DictFacts.get_del_same|].
      split; [intros k Hk; now apply DictFacts.get_del_other|].
      subst w1. cbn [current_user].
      destruct (option_string_eqb (current_user w) (Some student_id));
        simpl; [reflexivity | exact Hcu].
Qed.

Lemma delete_removes_one_record_witness :
  delete_succeeds (delete_student cw_py "s001" " Y " w2_ada)
  /\ students (final (delete_student cw_py "s001" " Y " w2_ada)) = [("S002", bob)]
  /\ current_user (final (delete_student cw_py "s001" " Y " w2_ada)) = None.
Proof.
  destruct (delete_removes_one_record cw_py "s001" " Y " w2_ada eq_refl)
    as [Hiff Heff].
  assert (Hok : delete_succeeds (delete_student cw_py "s001" " Y " w2_ada)).
  { apply Hiff. split; reflexivity. }
  split; [exact Hok|].
  destruct (Heff Hok) as [Hst [_ [_ Hcu]]].
  split; [exact Hst | exact Hcu].
Defined.

(* ------------------------------------------------------------------ *)
(** ** How the methods compose *)
(* ------------------------------------------------------------------ *)

Lemma save_data_disk_writable (v : source) (w : World) :
  save_raises v (final (save_data v w)) = save_raises v w.
Proof.
  unfold save_raises. destruct (save_data_final v w) as [_ [_ Hw]].
  now rewrite Hw.
Qed.

(** X11. A student who has just registered can log in: after a successful
    [register], [login] with the same password and any spelling of the ID
    that has the same normal form succeeds, makes that student the current
    user and records a first login. *)
Theorem login_after_register
    (v : source) (name_in id_in email_in password now id2 now2 : string)
    (w : World) :
  save_raises v w = false ->
  register_succeeds (register v name_in id_in email_in password now w) ->
  upper (strip id2) = upper (strip id_in) ->
  let w1 := final (register v name_in id_in email_in password now w) in
  let o := login v id2 password now2 w1 in
  login_succeeds o
  /\ current_user (final o) = Some (upper (strip id_in))
  /\ exists r, Dict.get (upper (strip id_in)) (students (final o)) = Some r
               /\ login_count r = 1%Z
               /\ last_login r = Some now2
               /\ name r = title (strip name_in)
               /\ email r = lower (strip email_in).
Proof.
  intros Hs Hok Hid w1 o.
  destruct (register_cases v name_in id_in email_in password now w)
    as [Hr | [_ [_ [_ [_ Ho]]]]].
  { destruct (registration_not_rejected _ _ _ Hr Hok). }
  set (record := mkStudent _ _ _ _ _ _) in Ho.
  assert (Hw1 : students w1 = Dict.set (upper (strip id_in)) record (students w)
                /\ save_raises v w1 = false).
  { unfold w1. rewrite Ho, after_save_returns by exact Hs. cbn [final].
    set (w' := mkWorld _ _ _).
    destruct (save_data_final v w') as [Hst _].
    split; [exact Hst|]. now rewrite save_data_disk_writable. }
  destruct Hw1 as [Hst1 Hs1].
  assert (Hget : Dict.get (upper (strip id2)) (students w1) = Some record).
  { rewrite Hid, Hst1. apply DictFacts.get_set_same. }
  unfold o.
  rewrite (login_accepted v id2 password now2 w1 record Hget eq_refl).
  set (w2' := mkWorld _ _ _).
  assert (Hs2 : save_raises v w2' = false) by exact Hs1.
  destruct (after_save_succeeds v w2' (set_user (Some (upper (strip id2))))
              (OkLoggedIn (name record)) Hs2) as [Hv [Hin [_ Hf]]].
  split; [split; [exact Hv | now exists (name record)]|].
  rewrite Hf. cbn [set_user current_user students].
  split; [now rewrite Hid|].
  destruct (save_data_final v w2') as [Hst2 _]. rewrite Hst2.
  subst w2'. cbn [students]. rewrite Hid, DictFacts.get_set_same.
  exists (record_login now2 record). repeat split.
Qed.

Lemma login_after_register_witness :
  login_succeeds
    (login cw_py " S003" "hunter22" "2024-01-03 09:00:00"
       (final (register cw_py "eve adams" "s003" "eve@x.org" "hunter22"
                        "2024-01-03 08:00:00" w2))).
Proof.
  assert (Hok : register_succeeds
                  (register cw_py "eve adams" "s003" "eve@x.org" "hunter22"
                            "2024-01-03 08:00:00" w2)).
  { split; [vm_compute; reflexivity|].
    exists "Eve Adams". vm_compute. left. reflexivity. }
  exact (proj1 (login_after_register cw_py "eve adams" "s003" "eve@x.org"
                  "hunter22" "2024-01-03 08:00:00" " S003" "2024-01-03 09:00:00"
                  w2 eq_refl Hok eq_refl)).
Defined.

(** X12. A deleted student is gone: after a successful [delete_student],
    a login under any spelling of that ID is rejected as not found, whatever
    the password, and a second deletion finds nothing to delete; both leave
    the state as the deletion left it. *)
Theorem deleted_student_cannot_log_in
    (v : source) (id_in confirm_in id2 password now answer : string) (w : World) :
  delete_succeeds (delete_student v id_in confirm_in w) ->
  upper (strip id2) = upper (strip id_in) ->
  let w1 := final (delete_student v id_in confirm_in w) in
  login v id2 password now w1 = mkOutcome w1 [ErrIdNotFound] (Return tt)
  /\ delete_student v id2 answer w1 = mkOutcome w1 [ErrIdNotFound] (Return tt).
Proof.
  intros Hok Hid w1.
  assert (Hget : Dict.get (upper (strip id2)) (students w1) = None).
  { destruct (delete_cases v id_in confirm_in w)
      as [Hr | [user [_ [_ Ho]]]].
    { destruct (deletion_not_rejected _ _ Hr Hok). }
    destruct Hok as [Hv _]. unfold w1. rewrite Ho in Hv |- *.
    unfold after_save in *. set (w' := mkWorld _ _ _) in *.
    destruct (save_data_final v w') as [Hst _].
    destruct (value (save_data v w')); [|discriminate].
    cbn [final]. unfold clear_if_current.
    destruct (option_string_eqb _ _); cbn [set_user students];
      rewrite Hst, Hid; subst w'; apply DictFacts.get_del_same. }
  split.
  - now apply login_not_found.
  - now apply delete_not_found.
Qed.

Lemma deleted_student_cannot_log_in_witness :
  login student_system_py "s001" "secret1" "2024-01-04 08:00:00"
    (final (delete_student student_system_py "S001" "y" w2_ada))
  = mkOutcome (final (delete_student student_system_py "S001" "y" w2_ada))
              [ErrIdNotFound] (Return tt).
Proof.
  assert (Hok : delete_succeeds (delete_student student_system_py "S001" "y" w2_ada)).
  { split; [reflexivity|]. exists "Ada Lovelace". left. reflexivity. }
  exact (proj1 (deleted_student_cannot_log_in student_system_py "S001" "y" "s001"
                  "secret1" "2024-01-04 08:00:00" "y" w2_ada Hok eq_refl)).
Defined.

(** The directory after a command, whether or not the save that follows
    the mutation raises. *)
Lemma after_save_students (v : source) (w1 : World) rest msg :
  (forall w', students (rest w') = students w') ->
  students (final (after_save v w1 rest msg)) = students w1.
Proof.
  intros Hrest. rewrite after_save_final.
  destruct (save_raises v w1); [reflexivity|].
  rewrite Hrest. apply save_data_final.
Qed.

Lemma clear_if_current_students (i : string) (w : World) :
  students (clear_if_current i w) = students w.
Proof. unfold clear_if_current. now destruct (option_string_eqb _ _). Qed.

(** X13. Within one turn of the loop a record that stays in the directory
    keeps its name, e-mail, password digest and registration time, and its
    login counter grows by at most one: only [login] changes a record, and
    only its counter and last login. *)
Theorem turn_keeps_identity_fields
    (v : source) (c : command) (w : World) (k : string) (r r' : student) :
  Dict.get k (students w) = Some r ->
  Dict.get k (students (final (turn v c w))) = Some r' ->
  name r' = name r /\ email r' = email r
  /\ password_hash r' = password_hash r
  /\ registered_on r' = registered_on r
  /\ (login_count r <= login_count r' <= login_count r + 1)%Z
  /\ (login_count r' = login_count r -> r' = r).
Proof.
  intros Hget. rewrite turn_final.
  assert (Hsame : Dict.get k (students w) = Some r' ->
                  name r' = name r /\ email r' = email r
                  /\ password_hash r' = password_hash r
                  /\ registered_on r' = registered_on r
                  /\ (login_count r <= login_count r' <= login_count r + 1)%Z
                  /\ (login_count r' = login_count r -> r' = r)).
  { intros H. rewrite Hget in H. injection H as <-.
    repeat split; try reflexivity; lia. }
  destruct (crashes w); [exact Hsame|].
  destruct (dispatch_effect v c w)
    as [H | [[n [i [e [p [t [_ [Hm H]]]]]]]
       | [[i [p [t [user [_ [Hu [_ H]]]]]]]
       | [[i [a [user [_ [_ [_ H]]]]]] | [_ H]]]]];
    rewrite H; clear H.
  - exact Hsame.
  - rewrite after_save_students by reflexivity. cbn [students].
    assert (Hne : k <> upper (strip i)).
    { intros ->. apply DictFacts.mem_false_get in Hm. congruence. }
    rewrite DictFacts.get_set_other by exact Hne. exact Hsame.
  - rewrite after_save_students by reflexivity. cbn [students].
    destruct (string_dec k (upper (strip i))) as [->|Hne].
    + rewrite DictFacts.get_set_same. intros H. injection H as <-.
      rewrite Hget in Hu. injection Hu as <-.
      unfold record_login. cbn. repeat split; try lia.
    + rewrite DictFacts.get_set_other by exact Hne. exact Hsame.
  - rewrite after_save_students by apply clear_if_current_students.
    cbn [students].
    destruct (string_dec k (upper (strip i))) as [->|Hne].
    + rewrite DictFacts.get_del_same. discriminate.
    + rewrite DictFacts.get_del_other by exact Hne. exact Hsame.
  - exact Hsame.
Qed.

Lemma turn_keeps_identity_fields_witness :
  Dict.get "S001"
    (students (final (turn student_system_py
                        (Login "s001" "secret1" "2024-01-01 10:05:00") w2)))
  = Some (record_login "2024-01-01 10:05:00" ada)
  /\ password_hash (record_login "2024-01-01 10:05:00" ada) = password_hash ada.
Proof.
  assert (H : Dict.get "S001"
                (students (final (turn student_system_py
                                    (Login "s001" "secret1" "2024-01-01 10:05:00") w2)))
              = Some (record_login "2024-01-01 10:05:00" ada))
    by (vm_compute; reflexivity).
  split; [exact H|].
  exact (proj1 (proj2 (proj2
           (turn_keeps_identity_fields student_system_py
              (Login "s001" "secret1" "2024-01-01 10:05:00")
              w2 "S001" ada _ eq_refl H)))).
Defined.

(* ------------------------------------------------------------------ *)
(** ** The snapshot follows the directory *)
(* ------------------------------------------------------------------ *)






(* ------------------------------------------------------------------ *)
(** ** The displays *)
(* ------------------------------------------------------------------ *)

Lemma view_loop_lines (items : directory) (count : Z) (w : World) :
  List.length (printed (view_loop count items w)) = List.length items
  /\ forall i k r,
       nth_error items i = Some (k, r) ->
       nth_error (printed (view_loop count items w)) i
       = Some (StudentLine (count + Z.of_nat i) k r).
Proof.
  revert count. induction items as [|[sid data] rest IH]; intros count.
  - split; [reflexivity|]. intros [|i] k r H; discriminate H.
  - cbn [view_loop]. step_m. destruct (IH (count + 1)%Z) as [Hlen Hnth].
    destruct (view_loop_outcome rest (count + 1)%Z w) as [_ Hv].
    cbn [List.length]. split; [now rewrite Hlen|].
    intros [|i] k r H.
    + injection H as <- <-. cbn. now rewrite Z.add_0_r.
    + cbn [nth_error] in H |- *. rewrite (Hnth i k r H).
      do 2 f_equal. lia.
Qed.

(** X4. [view_all_students] never fails and changes nothing. On an empty
    directory it says that nobody is registered; otherwise it prints one
    entry per record, in the order of the directory, numbered from 1. *)
Theorem view_all_students_lists_directory (w : World) :
  final (view_all_students w) = w
  /\ value (view_all_students w) = Return tt
  /\ (students w = [] -> printed (view_all_students w) = [NoStudents])
  /\ (students w <> [] ->
        List.length (printed (view_all_students w)) = List.length (students w)
        /\ forall i k r,
             nth_error (students w) i = Some (k, r) ->
             nth_error (printed (view_all_students w)) i
             = Some (StudentLine (Z.of_nat i + 1) k r)).
Proof.
  split; [apply view_all_students_final|].
  unfold view_all_students. step_m.
  destruct (students w) as [|x l] eqn:E.
  - split; [reflexivity|]. split; [reflexivity|]. intros H. congruence.
  - destruct (view_loop_outcome (x :: l) 1%Z w) as [_ Hv].
    destruct (view_loop_lines (x :: l) 1%Z w) as [Hlen Hnth].
    split; [exact Hv|]. split; [discriminate|]. intros _.
    split; [exact Hlen|].
    intros i k r H. rewrite (Hnth i k r H). do 2 f_equal. lia.
Qed.

Lemma view_all_students_lists_directory_witness :
  nth_error (printed (view_all_students w2)) 1 = Some (StudentLine 2 "S002" bob).
Proof.
  destruct (view_all_students_lists_directory w2) as [_ [_ [_ H]]].
  assert (Hne : students w2 <> []) by discriminate.
  exact (proj2 (H Hne) 1%nat "S002" bob eq_refl).
Defined.

(** X5. [view_profile] shows the record of the current user. In a state
    whose session is valid it never fails and changes nothing; with nobody
    logged in it only asks to log in, otherwise the profile it prints is the
    record stored under the ID of the session. *)
Theorem view_profile_shows_current_user (w : World) :
  session_valid w ->
  value (view_profile w) = Return tt
  /\ final (view_profile w) = w
  /\ (logged_in w = false -> printed (view_profile w) = [MustLogin])
  /\ (forall u, current_user w = Some u -> u <> "" ->
        exists data, Dict.get u (students w) = Some data
                     /\ printed (view_profile w) = [Profile u data]).
Proof.
  intros Hval. split; [|split; [apply view_profile_final|]].
  - unfold view_profile. destruct (logged_in w) eqn:Hl; [|reflexivity].
    unfold logged_in in Hl. destruct (current_user w) as [u|] eqn:Hu; [|discriminate].
    pose proof (Hval u Hu) as Hmem.
    apply DictFacts.mem_get in Hmem. destruct Hmem as [r Hr].
    cbn [negb]. step_m. rewrite Hu. step_m. rewrite Hr. reflexivity.
  - split.
    + intros Hl. unfold view_profile. now rewrite Hl.
    + intros u Hu Hne.
      pose proof (Hval u Hu) as Hmem.
      apply DictFacts.mem_get in Hmem. destruct Hmem as [r Hr].
      exists r. split; [exact Hr|].
      unfold view_profile, logged_in. rewrite Hu.
      apply truthy_true in Hne. rewrite Hne. cbn [negb].
      step_m. rewrite Hu. step_m. rewrite Hr. reflexivity.
Qed.

Lemma view_profile_shows_current_user_witness :
  exists data, Dict.get "S001" (students w2_ada) = Some data
               /\ printed (view_profile w2_ada) = [Profile "S001" data].
Proof.
  assert (Hval : session_valid w2_ada).
  { intros student_id H. injection H as <-. reflexivity. }
  destruct (view_profile_shows_current_user w2_ada Hval) as [_ [_ [_ H]]].
  apply (H "S001" eq_refl). discriminate.
Defined.

(** X16. After a successful login the profile is the one of the student
    who logged in, with the login just made counted, provided the ID is
    not the empty string; under the empty ID, which only a file edited by
    hand can hold, the session counts as not logged in. *)
Theorem profile_after_login
    (v : source) (id_in password now : string) (w : World) :
  save_raises v w = false ->
  login_succeeds (login v id_in password now w) ->
  let w1 := final (login v id_in password now w) in
  exists user,
    Dict.get (upper (strip id_in)) (students w) = Some user
    /\ (upper (strip id_in) <> "" ->
          view_profile w1
          = mkOutcome w1 [Profile (upper (strip id_in)) (record_login now user)]
                      (Return tt))
    /\ (upper (strip id_in) = "" ->
          view_profile w1 = mkOutcome w1 [MustLogin] (Return tt)).
Proof.
  intros Hs Hok w1.
  destruct (login_cases v id_in password now w)
    as [Hr | [user [Hget [_ Ho]]]].
  { exfalso. destruct Hok as [_ [n Hn]].
    refine (rejection_not_success _ w _ (fun m => exists n, m = OkLoggedIn n)
              Hr _ _ Hn _); [|now exists n].
    intros m [<-|[<-|[]]] [n' Hn']; discriminate. }
  exists user. split; [exact Hget|].
  assert (Hw1 : current_user w1 = Some (upper (strip id_in))
                /\ Dict.get (upper (strip id_in)) (students w1)
                   = Some (record_login now user)).
  { unfold w1. rewrite Ho, after_save_returns by exact Hs. cbn [final].
    set (w' := mkWorld _ _ _).
    destruct (save_data_final v w') as [Hst _].
    cbn [set_user current_user students]. rewrite Hst. subst w'. cbn [students].
    split; [reflexivity | apply DictFacts.get_set_same]. }
  destruct Hw1 as [Hcu Hg].
  split; intros Hid; unfold view_profile, logged_in; rewrite Hcu.
  - apply truthy_true in Hid. rewrite Hid. cbn [negb].
    step_m. rewrite Hcu. step_m. rewrite Hg. reflexivity.
  - rewrite Hid. reflexivity.
Qed.

Lemma profile_after_login_witness :
  printed
    (view_profile
       (final (login student_system_py "s002" "abcdef" "2024-01-05 12:00:00" w2)))
  = [Profile "S002" (record_login "2024-01-05 12:00:00" bob)].
Proof.
  assert (Hok : login_succeeds
                  (login student_system_py "s002" "abcdef" "2024-01-05 12:00:00" w2)).
  { split; [vm_compute; reflexivity|].
    exists "Bob". vm_compute. left. reflexivity. }
  destruct (profile_after_login student_system_py "s002" "abcdef"
              "2024-01-05 12:00:00" w2 eq_refl Hok) as [user [Hget [Hp _]]].
  injection Hget as <-.
  assert (Hne : upper (strip "s002") <> "") by discriminate.
  rewrite (Hp Hne). reflexivity.
Defined.

(* ------------------------------------------------------------------ *)
(** ** The digest *)
(* ------------------------------------------------------------------ *)

Module SHA256Facts.
Import SHA256.
Local Open Scope Z_scope.

Lemma round_length (st : list Z) (kw : Z * Z) :
  List.length st = 8%nat -> List.length (round st kw) = 8%nat.
Proof.
  destruct st as [|a [|b [|c [|d [|e [|f [|g [|h [|i t]]]]]]]]];
    intros H; try discriminate H; reflexivity.
Qed.

Lemma rounds_length (kws : list (Z * Z)) (st : list Z) :
  List.length st = 8%nat -> List.length (fold_left round kws st) = 8%nat.
Proof.
  revert st. induction kws as [|kw kws IH]; intros st H; simpl; [exact H|].
  apply IH. now apply round_length.
Qed.

Lemma add_words_length (xs ys : list Z) :
  List.length (add_words xs ys) = Nat.min (List.length xs) (List.length ys).
Proof.
  revert ys. induction xs as [|x xs IH]; intros [|y ys]; simpl; auto.
Qed.

Lemma compress_length (h block : list Z) :
  List.length h = 8%nat -> List.length (compress h block) = 8%nat.
Proof.
  intros H. unfold compress.
  rewrite add_words_length, rounds_length by exact H. now rewrite H.
Qed.

Lemma H0_length : List.length H0 = 8%nat.
Proof. vm_compute. reflexivity. Qed.

Lemma digest_length (msg : list Z) : List.length (digest msg) = 8%nat.
Proof.
  unfold digest. generalize (chunks (List.length (pad msg)) 64 (pad msg)).
  intros blocks. generalize H0_length. generalize H0.
  induction blocks as [|b blocks IH]; intros h Hh; simpl; [exact Hh|].
  apply IH. now apply compress_length.
Qed.

Lemma be_bytes_length (n : nat) (x : Z) : List.length (be_bytes n x) = n.
Proof. induction n as [|n IH]; simpl; [reflexivity | now rewrite IH]. Qed.

Lemma be_bytes_range (n : nat) (x : Z) : Forall byte_range (be_bytes n x).
Proof.
  induction n as [|n IH]; simpl; constructor; [|exact IH].
  unfold byte_range. apply Z.mod_pos_bound. lia.
Qed.

Lemma words_bytes_length (ws : list Z) :
  List.length (flat_map (be_bytes 4) ws) = (4 * List.length ws)%nat.
Proof.
  induction ws as [|x ws IH]; [reflexivity|].
  cbn [flat_map]. rewrite length_app, be_bytes_length, IH. simpl. lia.
Qed.

Lemma words_bytes_range (ws : list Z) :
  Forall byte_range (flat_map (be_bytes 4) ws).
Proof.
  induction ws as [|x ws IH]; [constructor|].
  cbn [flat_map]. apply Forall_app. split; [apply be_bytes_range | exact IH].
Qed.

Lemma hex_of_bytes_length (bs : list Z) :
  String.length (hex_of_bytes bs) = (2 * List.length bs)%nat.
Proof.
  induction bs as [|b bs IH]; [reflexivity|]. simpl. rewrite IH. lia.
Qed.

Lemma hex_digit_is_hex (d : Z) : 0 <= d < 16 -> is_hex (hex_digit d) = true.
Proof.
  intros H.
  assert (Hd : d = 0 \/ d = 1 \/ d = 2 \/ d = 3 \/ d = 4 \/ d = 5 \/ d = 6
               \/ d = 7 \/ d = 8 \/ d = 9 \/ d = 10 \/ d = 11 \/ d = 12
               \/ d = 13 \/ d = 14 \/ d = 15) by lia.
  repeat (destruct Hd as [->|Hd]; [reflexivity|]). subst d. reflexivity.
Qed.

Lemma hex_of_bytes_hex (bs : list Z) :
  Forall byte_range bs -> Re.all is_hex (hex_of_bytes bs) = true.
Proof.
  induction 1 as [|b bs Hb _ IH]; [reflexivity|].
  unfold byte_range in Hb. cbn [hex_of_bytes Re.all].
  rewrite !hex_digit_is_hex, IH; [reflexivity| |].
  - apply Z.mod_pos_bound. lia.
  - split; [apply Z.div_pos; lia | apply Z.div_lt_upper_bound; lia].
Qed.

End SHA256Facts.

Lemma hash_password_length (password : string) :
  String.length (hash_password password) = 64%nat.
Proof.
  unfold hash_password, SHA256.hexdigest.
  rewrite SHA256Facts.hex_of_bytes_length, SHA256Facts.words_bytes_length,
    SHA256Facts.digest_length.
  reflexivity.
Qed.

(** X8. [hash_password] returns, for every password, a string of exactly
    64 characters, each a digit or a letter from a to f: the stored digest
    has a fixed length and never contains the password's own characters
    outside that alphabet. *)
Theorem hash_password_is_64_hex_digits (password : string) :
  String.length (hash_password password) = 64%nat
  /\ Re.all is_hex (hash_password password) = true.
Proof.
  split; [apply hash_password_length|].
  unfold hash_password, SHA256.hexdigest.
  apply SHA256Facts.hex_of_bytes_hex, SHA256Facts.words_bytes_range.
Qed.

(* ------------------------------------------------------------------ *)
(** ** Well-formed records *)
(* ------------------------------------------------------------------ *)

Lemma directory_ok_get (d : directory) (k : string) (r : student) :
  directory_ok d -> Dict.get k d = Some r -> record_ok k r.
Proof.
  unfold directory_ok. induction 1 as [|[k' r'] t Hx _ IH]; simpl; [discriminate|].
  destruct (String.eqb k' k) eqn:E; [|exact IH].
  apply String.eqb_eq in E. subst k'. intros H. injection H as <-. exact Hx.
Qed.

Lemma directory_ok_set (d : directory) (k : string) (r : student) :
  directory_ok d -> record_ok k r -> directory_ok (Dict.set k r d).
Proof.
  unfold directory_ok. intros Hd Hr.
  induction Hd as [|[k' r'] t Hx Ht IH]; simpl.
  - constructor; [exact Hr | constructor].
  - destruct (String.eqb k' k); constructor; assumption.
Qed.

Lemma directory_ok_del (d : directory) (k : string) :
  directory_ok d -> directory_ok (Dict.del k d).
Proof.
  unfold directory_ok. induction 1 as [|[k' r'] t Hx _ IH]; simpl.
  - constructor.
  - destruct (String.eqb k' k); [exact IH | now constructor].
Qed.

Lemma record_login_ok (k now : string) (r : student) :
  record_ok k r -> record_ok k (record_login now r).
Proof.
  unfold record_ok, record_login. cbn.
  intros [H1 [H2 [H3 [H4 [H5 [H6 H7]]]]]].
  repeat (split; [assumption|]). split; [lia|].
  split; [discriminate | lia].
Qed.

Lemma turn_directory_ok (v : source) (c : command) (w : World) :
  directory_ok (students w) -> directory_ok (students (final (turn v c w))).
Proof.
  intros Hd. rewrite turn_final. destruct (crashes w); [exact Hd|].
  destruct c; unfold dispatch.
  - destruct (register_cases v name_in id_in email_in password now w)
      as [[m [_ Ho]] | [[Hn [Hi _]] [_ [He [_ Ho]]]]]; rewrite Ho; [exact Hd|].
    rewrite after_save_students by reflexivity. cbn [students].
    apply directory_ok_set; [exact Hd|].
    unfold record_ok. cbn.
    split; [exact Hi|]. split; [apply normal_form_idem|].
    split; [exact Hn|]. split; [exact He|].
    split; [apply hash_password_length|]. split; [lia|]. split; reflexivity.
  - destruct (login_cases v id_in password now w)
      as [[m [_ Ho]] | [user [Hget [_ Ho]]]]; rewrite Ho; [exact Hd|].
    rewrite after_save_students by reflexivity. cbn [students].
    apply directory_ok_set; [exact Hd|].
    apply record_login_ok. now apply directory_ok_get with (students w).
  - now rewrite view_all_students_final.
  - now rewrite search_student_final.
  - destruct (delete_cases v id_in confirm_in w)
      as [[m [_ Ho]] | [user [_ [_ Ho]]]]; rewrite Ho; [exact Hd|].
    rewrite after_save_students by apply clear_if_current_students.
    cbn [students]. now apply directory_ok_del.
  - destruct (logged_in w); [now rewrite view_profile_final | exact Hd].
  - destruct (logged_in w); [|exact Hd].
    destruct (logout_final w) as [H|H]; rewrite H; exact Hd.
  - exact Hd.
  - exact Hd.
Qed.

(** X10. What the program stores stays well formed. If every record of
    the directory has a non-empty ID in normal form (trimmed, uppercase), a
    name, an e-mail that matches the pattern, a digest of 64 characters and
    a counter that is non-negative and zero exactly when there is no last
    login, then the same holds after the loop has run on any input; so it
    holds whenever the program starts without a file. *)
Theorem run_keeps_records_well_formed
    (v : source) (cmds : list command) (w : World) :
  directory_ok (students w) ->
  directory_ok (students (final (run v cmds w))).
Proof.
  apply (run_invariant v (fun w' => directory_ok (students w'))).
  intros c w'. apply turn_directory_ok.
Qed.

Lemma run_keeps_records_well_formed_witness :
  directory_ok
    (students
       (final (run cw_py
                 [Register "eve adams" " s003" "Eve@X.org" "hunter22" "2024-01-03 08:00:00";
                  Login "S003" "hunter22" "2024-01-03 09:00:00"]
                 (blank fresh_disk)))).
Proof.
  apply (run_keeps_records_well_formed cw_py _ (blank fresh_disk)).
  constructor.
Defined.

(* ------------------------------------------------------------------ *)
(** ** Finding a registered student *)
(* ------------------------------------------------------------------ *)

Lemma to_lower_upper (c : ascii) : to_lower (to_upper c) = to_lower c.
Proof.
  destruct c as [b0 b1 b2 b3 b4 b5 b6 b7];
    destruct b0, b1, b2, b3, b4, b5, b6, b7; reflexivity.
Qed.

Lemma lower_upper (s : string) : lower (upper s) = lower s.
Proof.
  unfold lower, upper. induction s as [|c s IH]; simpl; [reflexivity|].
  now rewrite to_lower_upper, IH.
Qed.

Lemma upper_empty (s : string) : upper s = "" <-> s = "".
Proof. unfold upper. destruct s; simpl; split; intro H; congruence. Qed.

Lemma startswith_refl (s : string) : startswith s s = true.
Proof.
  induction s as [|c s IH]; simpl; [reflexivity|].
  now rewrite Ascii.eqb_refl, IH.
Qed.

Lemma contains_refl (s : string) : contains s s = true.
Proof. destruct s; simpl; [reflexivity|]. now rewrite Ascii.eqb_refl, startswith_refl. Qed.

Lemma set_in (k : string) (r : student) (d : directory) :
  In (k, r) (Dict.set k r d).
Proof.
  induction d as [|[k' r'] t IH]; simpl; [now left|].
  destruct (String.eqb k' k); [now left | now right].
Qed.

(** X17. A student who has just registered under an ID of ASCII
    characters is found by a search for the ID as it was typed at
    registration: the search prints the entry of that student, with the
    stored name, ID and e-mail, and changes nothing. *)
Theorem registered_student_is_found
    (v : source) (name_in id_in email_in password now : string) (w : World) :
  is_ascii id_in = true ->
  save_raises v w = false ->
  register_succeeds (register v name_in id_in email_in password now w) ->
  In (Found (title (strip name_in)) (upper (strip id_in)) (lower (strip email_in)))
     (printed (search_student id_in
                 (final (register v name_in id_in email_in password now w))))
  /\ final (search_student id_in
              (final (register v name_in id_in email_in password now w)))
     = final (register v name_in id_in email_in password now w).
Proof.
  intros _ Hs Hok. split; [|apply search_student_final].
  destruct (register_cases v name_in id_in email_in password now w)
    as [Hr | [[_ [Hi _]] [_ [_ [_ Ho]]]]].
  { destruct (registration_not_rejected _ _ _ Hr Hok). }
  set (record := mkStudent _ _ _ _ _ _) in Ho.
  set (w1 := final (register v name_in id_in email_in password now w)).
  assert (Hin : In (upper (strip id_in), record) (students w1)).
  { unfold w1. rewrite Ho. rewrite after_save_students by reflexivity.
    apply set_in. }
  assert (Hq : truthy (lower (strip id_in)) = true).
  { apply truthy_true. intros E.
    apply Hi. apply (proj2 (upper_empty _)).
    exact (proj1 (lower_empty _) E). }
  unfold search_student. rewrite Hq. step_m. rewrite search_loop_outcome.
  step_m. apply in_or_app. left.
  change (Found (title (strip name_in)) (upper (strip id_in)) (lower (strip email_in)))
    with (found_line (upper (strip id_in), record)).
  apply in_map. apply filter_In. split; [exact Hin|].
  cbn [fst snd]. rewrite lower_upper, contains_refl. reflexivity.
Qed.

Lemma registered_student_is_found_witness :
  In (Found "Eve Adams" "S003" "eve@x.org")
     (printed (search_student " s003 "
                 (final (register student_system_py "eve adams" " s003 " "Eve@X.org"
                                  "hunter22" "2024-01-03 08:00:00" w2)))).
Proof.
  assert (Hok : register_succeeds
                  (register student_system_py "eve adams" " s003 " "Eve@X.org"
                            "hunter22" "2024-01-03 08:00:00" w2)).
  { split; [vm_compute; reflexivity|].
    exists "Eve Adams". vm_compute. left. reflexivity. }
  exact (proj1 (registered_student_is_found student_system_py "eve adams" " s003 "
                  "Eve@X.org" "hunter22" "2024-01-03 08:00:00" w2
                  eq_refl eq_refl Hok)).
Defined.
